(** * Web3 Job Hunter: a shallow embedding of [job_hunter.py]

    The development follows the Python source class by class:
    - [Unicode]: code points, UTF-8 and the character tables behind
      [str.lower] and [str.strip];
    - [PyStr]: the string operations the program relies on ([str.lower],
      the [in] substring test, truthiness of strings);
    - [PyFloat]: Python floats as IEEE binary64 (Rocq's primitive floats),
      with the built-in [min] and [max];
    - [MD5]: [hashlib.md5(...).hexdigest()];
    - [Job], [HttpClient], [JobDatabase], [ScoringEngine], [HTMLScraper],
      [JobHunter]: the classes of the program.

    A Python string is held as its UTF-8 encoding ([String.string], one
    character per byte), so [str.encode()] is the identity and the substring
    test on bytes is the substring test on code points. What depends on the
    code points ([str.lower], [str.strip], the pattern [\s]) decodes the
    string first and follows CPython 3.11 and its Unicode 14 tables.
    Wall-clock time ([datetime.now()]) is a parameter of every function that
    reads it; a [datetime] is a count of microseconds since a fixed epoch. *)

From Stdlib Require Import ZArith Floats Ascii String List Bool Lia DecimalString.
From stdpp Require Import base option gmap strings list.

Open Scope Z_scope.

(* ===================================================================== *)
(** ** Unicode: code points, UTF-8 and the character tables of CPython *)
(* ===================================================================== *)

Module Unicode.

Definition byte (a : ascii) : Z := Z.of_nat (nat_of_ascii a).

Definition char (b : Z) : ascii := ascii_of_nat (Z.to_nat b).

(** A byte of the form [10xxxxxx]. *)
Definition is_cont (b : Z) : bool := (0x80 <=? b) && (b <=? 0xBF).

(** A byte that belongs to no well-formed sequence stands for itself, as
    the negative number [-1 - b]; it never occurs in the encoding of a
    Python string. *)
Definition raw (b : Z) : Z := -1 - b.

(** The code point of a two, three or four byte sequence, when the
    sequence is well formed (shortest form, no surrogate, at most
    [U+10FFFF]). *)
Definition two (b0 b1 : Z) : option Z :=
  if (0xC2 <=? b0) && (b0 <=? 0xDF) && is_cont b1
  then Some ((b0 - 0xC0) * 64 + (b1 - 0x80))
  else None.

Definition three (b0 b1 b2 : Z) : option Z :=
  let c := (b0 - 0xE0) * 4096 + (b1 - 0x80) * 64 + (b2 - 0x80) in
  if (0xE0 <=? b0) && (b0 <=? 0xEF) && is_cont b1 && is_cont b2
     && (0x800 <=? c) && negb ((0xD800 <=? c) && (c <=? 0xDFFF))
  then Some c
  else None.

Definition four (b0 b1 b2 b3 : Z) : option Z :=
  let c := (b0 - 0xF0) * 262144 + (b1 - 0x80) * 4096 + (b2 - 0x80) * 64 + (b3 - 0x80) in
  if (0xF0 <=? b0) && (b0 <=? 0xF4) && is_cont b1 && is_cont b2 && is_cont b3
     && (0x10000 <=? c) && (c <=? 0x10FFFF)
  then Some c
  else None.

(** The code points of a string, from its UTF-8 encoding. *)
Fixpoint decode (s : string) : list Z :=
  match s with
  | EmptyString => []
  | String a0 s1 =>
      let b0 := byte a0 in
      if b0 <? 0x80 then b0 :: decode s1
      else
        match s1 with
        | EmptyString => [raw b0]
        | String a1 s2 =>
            match two b0 (byte a1) with
            | Some c => c :: decode s2
            | None =>
                match s2 with
                | EmptyString => raw b0 :: decode s1
                | String a2 s3 =>
                    match three b0 (byte a1) (byte a2) with
                    | Some c => c :: decode s3
                    | None =>
                        match s3 with
                        | EmptyString => raw b0 :: decode s1
                        | String a3 s4 =>
                            match four b0 (byte a1) (byte a2) (byte a3) with
                            | Some c => c :: decode s4
                            | None => raw b0 :: decode s1
                            end
                        end
                    end
                end
            end
        end
  end.

(** The UTF-8 encoding of one code point. *)
Definition encode_point (c : Z) : list Z :=
  if c <? 0 then [-1 - c]
  else if c <? 0x80 then [c]
  else if c <? 0x800 then [0xC0 + c / 64; 0x80 + c mod 64]
  else if c <? 0x10000 then
    [0xE0 + c / 4096; 0x80 + (c / 64) mod 64; 0x80 + c mod 64]
  else
    [0xF0 + c / 262144; 0x80 + (c / 4096) mod 64; 0x80 + (c / 64) mod 64;
     0x80 + c mod 64].

(** [str.encode()], from the code points. *)
Fixpoint encode (l : list Z) : string :=
  match l with
  | [] => EmptyString
  | c :: l' =>
      fold_right (fun b s => String (char b) s) (encode l') (encode_point c)
  end.

(** The simple lower-case mappings, as ranges [(first, last, delta,
    stride)]: a code point [c] of the range with [(c - first) mod stride = 0]
    maps to [c + delta]. *)
Definition lower_ranges : list (Z * Z * Z * Z) :=
  [
    (0x41, 0x5A, 32, 1); (0xC0, 0xD6, 32, 1); (0xD8, 0xDE, 32, 1); (0x100, 0x12E, 1, 2);
    (0x132, 0x136, 1, 2); (0x139, 0x147, 1, 2); (0x14A, 0x176, 1, 2); (0x178, 0x178, (-121), 1);
    (0x179, 0x17D, 1, 2); (0x181, 0x181, 210, 1); (0x182, 0x184, 1, 2); (0x186, 0x186, 206, 1);
    (0x187, 0x187, 1, 1); (0x189, 0x18A, 205, 1); (0x18B, 0x18B, 1, 1); (0x18E, 0x18E, 79, 1);
    (0x18F, 0x18F, 202, 1); (0x190, 0x190, 203, 1); (0x191, 0x191, 1, 1); (0x193, 0x193, 205, 1);
    (0x194, 0x194, 207, 1); (0x196, 0x196, 211, 1); (0x197, 0x197, 209, 1); (0x198, 0x198, 1, 1);
    (0x19C, 0x19C, 211, 1); (0x19D, 0x19D, 213, 1); (0x19F, 0x19F, 214, 1); (0x1A0, 0x1A4, 1, 2);
    (0x1A6, 0x1A6, 218, 1); (0x1A7, 0x1A7, 1, 1); (0x1A9, 0x1A9, 218, 1); (0x1AC, 0x1AC, 1, 1);
    (0x1AE, 0x1AE, 218, 1); (0x1AF, 0x1AF, 1, 1); (0x1B1, 0x1B2, 217, 1); (0x1B3, 0x1B5, 1, 2);
    (0x1B7, 0x1B7, 219, 1); (0x1B8, 0x1B8, 1, 1); (0x1BC, 0x1BC, 1, 1); (0x1C4, 0x1C4, 2, 1);
    (0x1C5, 0x1C5, 1, 1); (0x1C7, 0x1C7, 2, 1); (0x1C8, 0x1C8, 1, 1); (0x1CA, 0x1CA, 2, 1);
    (0x1CB, 0x1DB, 1, 2); (0x1DE, 0x1EE, 1, 2); (0x1F1, 0x1F1, 2, 1); (0x1F2, 0x1F4, 1, 2);
    (0x1F6, 0x1F6, (-97), 1); (0x1F7, 0x1F7, (-56), 1); (0x1F8, 0x21E, 1, 2); (0x220, 0x220, (-130), 1);
    (0x222, 0x232, 1, 2); (0x23A, 0x23A, 10795, 1); (0x23B, 0x23B, 1, 1); (0x23D, 0x23D, (-163), 1);
    (0x23E, 0x23E, 10792, 1); (0x241, 0x241, 1, 1); (0x243, 0x243, (-195), 1); (0x244, 0x244, 69, 1);
    (0x245, 0x245, 71, 1); (0x246, 0x24E, 1, 2); (0x370, 0x372, 1, 2); (0x376, 0x376, 1, 1);
    (0x37F, 0x37F, 116, 1); (0x386, 0x386, 38, 1); (0x388, 0x38A, 37, 1); (0x38C, 0x38C, 64, 1);
    (0x38E, 0x38F, 63, 1); (0x391, 0x3A1, 32, 1); (0x3A3, 0x3AB, 32, 1); (0x3CF, 0x3CF, 8, 1);
    (0x3D8, 0x3EE, 1, 2); (0x3F4, 0x3F4, (-60), 1); (0x3F7, 0x3F7, 1, 1); (0x3F9, 0x3F9, (-7), 1);
    (0x3FA, 0x3FA, 1, 1); (0x3FD, 0x3FF, (-130), 1); (0x400, 0x40F, 80, 1); (0x410, 0x42F, 32, 1);
    (0x460, 0x480, 1, 2); (0x48A, 0x4BE, 1, 2); (0x4C0, 0x4C0, 15, 1); (0x4C1, 0x4CD, 1, 2);
    (0x4D0, 0x52E, 1, 2); (0x531, 0x556, 48, 1); (0x10A0, 0x10C5, 7264, 1); (0x10C7, 0x10C7, 7264, 1);
    (0x10CD, 0x10CD, 7264, 1); (0x13A0, 0x13EF, 38864, 1); (0x13F0, 0x13F5, 8, 1); (0x1C90, 0x1CBA, (-3008), 1);
    (0x1CBD, 0x1CBF, (-3008), 1); (0x1E00, 0x1E94, 1, 2); (0x1E9E, 0x1E9E, (-7615), 1); (0x1EA0, 0x1EFE, 1, 2);
    (0x1F08, 0x1F0F, (-8), 1); (0x1F18, 0x1F1D, (-8), 1); (0x1F28, 0x1F2F, (-8), 1); (0x1F38, 0x1F3F, (-8), 1);
    (0x1F48, 0x1F4D, (-8), 1); (0x1F59, 0x1F5F, (-8), 2); (0x1F68, 0x1F6F, (-8), 1); (0x1F88, 0x1F8F, (-8), 1);
    (0x1F98, 0x1F9F, (-8), 1); (0x1FA8, 0x1FAF, (-8), 1); (0x1FB8, 0x1FB9, (-8), 1); (0x1FBA, 0x1FBB, (-74), 1);
    (0x1FBC, 0x1FBC, (-9), 1); (0x1FC8, 0x1FCB, (-86), 1); (0x1FCC, 0x1FCC, (-9), 1); (0x1FD8, 0x1FD9, (-8), 1);
    (0x1FDA, 0x1FDB, (-100), 1); (0x1FE8, 0x1FE9, (-8), 1); (0x1FEA, 0x1FEB, (-112), 1); (0x1FEC, 0x1FEC, (-7), 1);
    (0x1FF8, 0x1FF9, (-128), 1); (0x1FFA, 0x1FFB, (-126), 1); (0x1FFC, 0x1FFC, (-9), 1); (0x2126, 0x2126, (-7517), 1);
    (0x212A, 0x212A, (-8383), 1); (0x212B, 0x212B, (-8262), 1); (0x2132, 0x2132, 28, 1); (0x2160, 0x216F, 16, 1);
    (0x2183, 0x2183, 1, 1); (0x24B6, 0x24CF, 26, 1); (0x2C00, 0x2C2F, 48, 1); (0x2C60, 0x2C60, 1, 1);
    (0x2C62, 0x2C62, (-10743), 1); (0x2C63, 0x2C63, (-3814), 1); (0x2C64, 0x2C64, (-10727), 1); (0x2C67, 0x2C6B, 1, 2);
    (0x2C6D, 0x2C6D, (-10780), 1); (0x2C6E, 0x2C6E, (-10749), 1); (0x2C6F, 0x2C6F, (-10783), 1); (0x2C70, 0x2C70, (-10782), 1);
    (0x2C72, 0x2C72, 1, 1); (0x2C75, 0x2C75, 1, 1); (0x2C7E, 0x2C7F, (-10815), 1); (0x2C80, 0x2CE2, 1, 2);
    (0x2CEB, 0x2CED, 1, 2); (0x2CF2, 0x2CF2, 1, 1); (0xA640, 0xA66C, 1, 2); (0xA680, 0xA69A, 1, 2);
    (0xA722, 0xA72E, 1, 2); (0xA732, 0xA76E, 1, 2); (0xA779, 0xA77B, 1, 2); (0xA77D, 0xA77D, (-35332), 1);
    (0xA77E, 0xA786, 1, 2); (0xA78B, 0xA78B, 1, 1); (0xA78D, 0xA78D, (-42280), 1); (0xA790, 0xA792, 1, 2);
    (0xA796, 0xA7A8, 1, 2); (0xA7AA, 0xA7AA, (-42308), 1); (0xA7AB, 0xA7AB, (-42319), 1); (0xA7AC, 0xA7AC, (-42315), 1);
    (0xA7AD, 0xA7AD, (-42305), 1); (0xA7AE, 0xA7AE, (-42308), 1); (0xA7B0, 0xA7B0, (-42258), 1); (0xA7B1, 0xA7B1, (-42282), 1);
    (0xA7B2, 0xA7B2, (-42261), 1); (0xA7B3, 0xA7B3, 928, 1); (0xA7B4, 0xA7C2, 1, 2); (0xA7C4, 0xA7C4, (-48), 1);
    (0xA7C5, 0xA7C5, (-42307), 1); (0xA7C6, 0xA7C6, (-35384), 1); (0xA7C7, 0xA7C9, 1, 2); (0xA7D0, 0xA7D0, 1, 1);
    (0xA7D6, 0xA7D8, 1, 2); (0xA7F5, 0xA7F5, 1, 1); (0xFF21, 0xFF3A, 32, 1); (0x10400, 0x10427, 40, 1);
    (0x104B0, 0x104D3, 40, 1); (0x10570, 0x1057A, 39, 1); (0x1057C, 0x1058A, 39, 1); (0x1058C, 0x10592, 39, 1);
    (0x10594, 0x10595, 39, 1); (0x10C80, 0x10CB2, 64, 1); (0x118A0, 0x118BF, 32, 1); (0x16E40, 0x16E5F, 32, 1);
    (0x1E900, 0x1E921, 34, 1) ].

(** The code points with property Case_Ignorable, as ranges
    [(first, last)]. *)
Definition case_ignorable_ranges : list (Z * Z) :=
  [
    (0x27, 0x27); (0x2E, 0x2E); (0x3A, 0x3A); (0x5E, 0x5E); (0x60, 0x60); (0xA8, 0xA8);
    (0xAD, 0xAD); (0xAF, 0xAF); (0xB4, 0xB4); (0xB7, 0xB8); (0x2B0, 0x36F); (0x374, 0x375);
    (0x37A, 0x37A); (0x384, 0x385); (0x387, 0x387); (0x483, 0x489); (0x559, 0x559); (0x55F, 0x55F);
    (0x591, 0x5BD); (0x5BF, 0x5BF); (0x5C1, 0x5C2); (0x5C4, 0x5C5); (0x5C7, 0x5C7); (0x5F4, 0x5F4);
    (0x600, 0x605); (0x610, 0x61A); (0x61C, 0x61C); (0x640, 0x640); (0x64B, 0x65F); (0x670, 0x670);
    (0x6D6, 0x6DD); (0x6DF, 0x6E8); (0x6EA, 0x6ED); (0x70F, 0x70F); (0x711, 0x711); (0x730, 0x74A);
    (0x7A6, 0x7B0); (0x7EB, 0x7F5); (0x7FA, 0x7FA); (0x7FD, 0x7FD); (0x816, 0x82D); (0x859, 0x85B);
    (0x888, 0x888); (0x890, 0x891); (0x898, 0x89F); (0x8C9, 0x902); (0x93A, 0x93A); (0x93C, 0x93C);
    (0x941, 0x948); (0x94D, 0x94D); (0x951, 0x957); (0x962, 0x963); (0x971, 0x971); (0x981, 0x981);
    (0x9BC, 0x9BC); (0x9C1, 0x9C4); (0x9CD, 0x9CD); (0x9E2, 0x9E3); (0x9FE, 0x9FE); (0xA01, 0xA02);
    (0xA3C, 0xA3C); (0xA41, 0xA42); (0xA47, 0xA48); (0xA4B, 0xA4D); (0xA51, 0xA51); (0xA70, 0xA71);
    (0xA75, 0xA75); (0xA81, 0xA82); (0xABC, 0xABC); (0xAC1, 0xAC5); (0xAC7, 0xAC8); (0xACD, 0xACD);
    (0xAE2, 0xAE3); (0xAFA, 0xAFF); (0xB01, 0xB01); (0xB3C, 0xB3C); (0xB3F, 0xB3F); (0xB41, 0xB44);
    (0xB4D, 0xB4D); (0xB55, 0xB56); (0xB62, 0xB63); (0xB82, 0xB82); (0xBC0, 0xBC0); (0xBCD, 0xBCD);
    (0xC00, 0xC00); (0xC04, 0xC04); (0xC3C, 0xC3C); (0xC3E, 0xC40); (0xC46, 0xC48); (0xC4A, 0xC4D);
    (0xC55, 0xC56); (0xC62, 0xC63); (0xC81, 0xC81); (0xCBC, 0xCBC); (0xCBF, 0xCBF); (0xCC6, 0xCC6);
    (0xCCC, 0xCCD); (0xCE2, 0xCE3); (0xD00, 0xD01); (0xD3B, 0xD3C); (0xD41, 0xD44); (0xD4D, 0xD4D);
    (0xD62, 0xD63); (0xD81, 0xD81); (0xDCA, 0xDCA); (0xDD2, 0xDD4); (0xDD6, 0xDD6); (0xE31, 0xE31);
    (0xE34, 0xE3A); (0xE46, 0xE4E); (0xEB1, 0xEB1); (0xEB4, 0xEBC); (0xEC6, 0xEC6); (0xEC8, 0xECD);
    (0xF18, 0xF19); (0xF35, 0xF35); (0xF37, 0xF37); (0xF39, 0xF39); (0xF71, 0xF7E); (0xF80, 0xF84);
    (0xF86, 0xF87); (0xF8D, 0xF97); (0xF99, 0xFBC); (0xFC6, 0xFC6); (0x102D, 0x1030); (0x1032, 0x1037);
    (0x1039, 0x103A); (0x103D, 0x103E); (0x1058, 0x1059); (0x105E, 0x1060); (0x1071, 0x1074); (0x1082, 0x1082);
    (0x1085, 0x1086); (0x108D, 0x108D); (0x109D, 0x109D); (0x10FC, 0x10FC); (0x135D, 0x135F); (0x1712, 0x1714);
    (0x1732, 0x1733); (0x1752, 0x1753); (0x1772, 0x1773); (0x17B4, 0x17B5); (0x17B7, 0x17BD); (0x17C6, 0x17C6);
    (0x17C9, 0x17D3); (0x17D7, 0x17D7); (0x17DD, 0x17DD); (0x180B, 0x180F); (0x1843, 0x1843); (0x1885, 0x1886);
    (0x18A9, 0x18A9); (0x1920, 0x1922); (0x1927, 0x1928); (0x1932, 0x1932); (0x1939, 0x193B); (0x1A17, 0x1A18);
    (0x1A1B, 0x1A1B); (0x1A56, 0x1A56); (0x1A58, 0x1A5E); (0x1A60, 0x1A60); (0x1A62, 0x1A62); (0x1A65, 0x1A6C);
    (0x1A73, 0x1A7C); (0x1A7F, 0x1A7F); (0x1AA7, 0x1AA7); (0x1AB0, 0x1ACE); (0x1B00, 0x1B03); (0x1B34, 0x1B34);
    (0x1B36, 0x1B3A); (0x1B3C, 0x1B3C); (0x1B42, 0x1B42); (0x1B6B, 0x1B73); (0x1B80, 0x1B81); (0x1BA2, 0x1BA5);
    (0x1BA8, 0x1BA9); (0x1BAB, 0x1BAD); (0x1BE6, 0x1BE6); (0x1BE8, 0x1BE9); (0x1BED, 0x1BED); (0x1BEF, 0x1BF1);
    (0x1C2C, 0x1C33); (0x1C36, 0x1C37); (0x1C78, 0x1C7D); (0x1CD0, 0x1CD2); (0x1CD4, 0x1CE0); (0x1CE2, 0x1CE8);
    (0x1CED, 0x1CED); (0x1CF4, 0x1CF4); (0x1CF8, 0x1CF9); (0x1D2C, 0x1D6A); (0x1D78, 0x1D78); (0x1D9B, 0x1DFF);
    (0x1FBD, 0x1FBD); (0x1FBF, 0x1FC1); (0x1FCD, 0x1FCF); (0x1FDD, 0x1FDF); (0x1FED, 0x1FEF); (0x1FFD, 0x1FFE);
    (0x200B, 0x200F); (0x2018, 0x2019); (0x2024, 0x2024); (0x2027, 0x2027); (0x202A, 0x202E); (0x2060, 0x2064);
    (0x2066, 0x206F); (0x2071, 0x2071); (0x207F, 0x207F); (0x2090, 0x209C); (0x20D0, 0x20F0); (0x2C7C, 0x2C7D);
    (0x2CEF, 0x2CF1); (0x2D6F, 0x2D6F); (0x2D7F, 0x2D7F); (0x2DE0, 0x2DFF); (0x2E2F, 0x2E2F); (0x3005, 0x3005);
    (0x302A, 0x302D); (0x3031, 0x3035); (0x303B, 0x303B); (0x3099, 0x309E); (0x30FC, 0x30FE); (0xA015, 0xA015);
    (0xA4F8, 0xA4FD); (0xA60C, 0xA60C); (0xA66F, 0xA672); (0xA674, 0xA67D); (0xA67F, 0xA67F); (0xA69C, 0xA69F);
    (0xA6F0, 0xA6F1); (0xA700, 0xA721); (0xA770, 0xA770); (0xA788, 0xA78A); (0xA7F2, 0xA7F4); (0xA7F8, 0xA7F9);
    (0xA802, 0xA802); (0xA806, 0xA806); (0xA80B, 0xA80B); (0xA825, 0xA826); (0xA82C, 0xA82C); (0xA8C4, 0xA8C5);
    (0xA8E0, 0xA8F1); (0xA8FF, 0xA8FF); (0xA926, 0xA92D); (0xA947, 0xA951); (0xA980, 0xA982); (0xA9B3, 0xA9B3);
    (0xA9B6, 0xA9B9); (0xA9BC, 0xA9BD); (0xA9CF, 0xA9CF); (0xA9E5, 0xA9E6); (0xAA29, 0xAA2E); (0xAA31, 0xAA32);
    (0xAA35, 0xAA36); (0xAA43, 0xAA43); (0xAA4C, 0xAA4C); (0xAA70, 0xAA70); (0xAA7C, 0xAA7C); (0xAAB0, 0xAAB0);
    (0xAAB2, 0xAAB4); (0xAAB7, 0xAAB8); (0xAABE, 0xAABF); (0xAAC1, 0xAAC1); (0xAADD, 0xAADD); (0xAAEC, 0xAAED);
    (0xAAF3, 0xAAF4); (0xAAF6, 0xAAF6); (0xAB5B, 0xAB5F); (0xAB69, 0xAB6B); (0xABE5, 0xABE5); (0xABE8, 0xABE8);
    (0xABED, 0xABED); (0xFB1E, 0xFB1E); (0xFBB2, 0xFBC2); (0xFE00, 0xFE0F); (0xFE13, 0xFE13); (0xFE20, 0xFE2F);
    (0xFE52, 0xFE52); (0xFE55, 0xFE55); (0xFEFF, 0xFEFF); (0xFF07, 0xFF07); (0xFF0E, 0xFF0E); (0xFF1A, 0xFF1A);
    (0xFF3E, 0xFF3E); (0xFF40, 0xFF40); (0xFF70, 0xFF70); (0xFF9E, 0xFF9F); (0xFFE3, 0xFFE3); (0xFFF9, 0xFFFB);
    (0x101FD, 0x101FD); (0x102E0, 0x102E0); (0x10376, 0x1037A); (0x10780, 0x10785); (0x10787, 0x107B0); (0x107B2, 0x107BA);
    (0x10A01, 0x10A03); (0x10A05, 0x10A06); (0x10A0C, 0x10A0F); (0x10A38, 0x10A3A); (0x10A3F, 0x10A3F); (0x10AE5, 0x10AE6);
    (0x10D24, 0x10D27); (0x10EAB, 0x10EAC); (0x10F46, 0x10F50); (0x10F82, 0x10F85); (0x11001, 0x11001); (0x11038, 0x11046);
    (0x11070, 0x11070); (0x11073, 0x11074); (0x1107F, 0x11081); (0x110B3, 0x110B6); (0x110B9, 0x110BA); (0x110BD, 0x110BD);
    (0x110C2, 0x110C2); (0x110CD, 0x110CD); (0x11100, 0x11102); (0x11127, 0x1112B); (0x1112D, 0x11134); (0x11173, 0x11173);
    (0x11180, 0x11181); (0x111B6, 0x111BE); (0x111C9, 0x111CC); (0x111CF, 0x111CF); (0x1122F, 0x11231); (0x11234, 0x11234);
    (0x11236, 0x11237); (0x1123E, 0x1123E); (0x112DF, 0x112DF); (0x112E3, 0x112EA); (0x11300, 0x11301); (0x1133B, 0x1133C);
    (0x11340, 0x11340); (0x11366, 0x1136C); (0x11370, 0x11374); (0x11438, 0x1143F); (0x11442, 0x11444); (0x11446, 0x11446);
    (0x1145E, 0x1145E); (0x114B3, 0x114B8); (0x114BA, 0x114BA); (0x114BF, 0x114C0); (0x114C2, 0x114C3); (0x115B2, 0x115B5);
    (0x115BC, 0x115BD); (0x115BF, 0x115C0); (0x115DC, 0x115DD); (0x11633, 0x1163A); (0x1163D, 0x1163D); (0x1163F, 0x11640);
    (0x116AB, 0x116AB); (0x116AD, 0x116AD); (0x116B0, 0x116B5); (0x116B7, 0x116B7); (0x1171D, 0x1171F); (0x11722, 0x11725);
    (0x11727, 0x1172B); (0x1182F, 0x11837); (0x11839, 0x1183A); (0x1193B, 0x1193C); (0x1193E, 0x1193E); (0x11943, 0x11943);
    (0x119D4, 0x119D7); (0x119DA, 0x119DB); (0x119E0, 0x119E0); (0x11A01, 0x11A0A); (0x11A33, 0x11A38); (0x11A3B, 0x11A3E);
    (0x11A47, 0x11A47); (0x11A51, 0x11A56); (0x11A59, 0x11A5B); (0x11A8A, 0x11A96); (0x11A98, 0x11A99); (0x11C30, 0x11C36);
    (0x11C38, 0x11C3D); (0x11C3F, 0x11C3F); (0x11C92, 0x11CA7); (0x11CAA, 0x11CB0); (0x11CB2, 0x11CB3); (0x11CB5, 0x11CB6);
    (0x11D31, 0x11D36); (0x11D3A, 0x11D3A); (0x11D3C, 0x11D3D); (0x11D3F, 0x11D45); (0x11D47, 0x11D47); (0x11D90, 0x11D91);
    (0x11D95, 0x11D95); (0x11D97, 0x11D97); (0x11EF3, 0x11EF4); (0x13430, 0x13438); (0x16AF0, 0x16AF4); (0x16B30, 0x16B36);
    (0x16B40, 0x16B43); (0x16F4F, 0x16F4F); (0x16F8F, 0x16F9F); (0x16FE0, 0x16FE1); (0x16FE3, 0x16FE4); (0x1AFF0, 0x1AFF3);
    (0x1AFF5, 0x1AFFB); (0x1AFFD, 0x1AFFE); (0x1BC9D, 0x1BC9E); (0x1BCA0, 0x1BCA3); (0x1CF00, 0x1CF2D); (0x1CF30, 0x1CF46);
    (0x1D167, 0x1D169); (0x1D173, 0x1D182); (0x1D185, 0x1D18B); (0x1D1AA, 0x1D1AD); (0x1D242, 0x1D244); (0x1DA00, 0x1DA36);
    (0x1DA3B, 0x1DA6C); (0x1DA75, 0x1DA75); (0x1DA84, 0x1DA84); (0x1DA9B, 0x1DA9F); (0x1DAA1, 0x1DAAF); (0x1E000, 0x1E006);
    (0x1E008, 0x1E018); (0x1E01B, 0x1E021); (0x1E023, 0x1E024); (0x1E026, 0x1E02A); (0x1E130, 0x1E13D); (0x1E2AE, 0x1E2AE);
    (0x1E2EC, 0x1E2EF); (0x1E8D0, 0x1E8D6); (0x1E944, 0x1E94B); (0x1F3FB, 0x1F3FF); (0xE0001, 0xE0001); (0xE0020, 0xE007F);
    (0xE0100, 0xE01EF) ].

(** The code points with property Cased, as ranges [(first, last)]. *)
Definition cased_ranges : list (Z * Z) :=
  [
    (0x41, 0x5A); (0x61, 0x7A); (0xAA, 0xAA); (0xB5, 0xB5); (0xBA, 0xBA); (0xC0, 0xD6);
    (0xD8, 0xF6); (0xF8, 0x1BA); (0x1BC, 0x1BF); (0x1C4, 0x293); (0x295, 0x2B8); (0x2C0, 0x2C1);
    (0x2E0, 0x2E4); (0x345, 0x345); (0x370, 0x373); (0x376, 0x377); (0x37A, 0x37D); (0x37F, 0x37F);
    (0x386, 0x386); (0x388, 0x38A); (0x38C, 0x38C); (0x38E, 0x3A1); (0x3A3, 0x3F5); (0x3F7, 0x481);
    (0x48A, 0x52F); (0x531, 0x556); (0x560, 0x588); (0x10A0, 0x10C5); (0x10C7, 0x10C7); (0x10CD, 0x10CD);
    (0x10D0, 0x10FA); (0x10FD, 0x10FF); (0x13A0, 0x13F5); (0x13F8, 0x13FD); (0x1C80, 0x1C88); (0x1C90, 0x1CBA);
    (0x1CBD, 0x1CBF); (0x1D00, 0x1DBF); (0x1E00, 0x1F15); (0x1F18, 0x1F1D); (0x1F20, 0x1F45); (0x1F48, 0x1F4D);
    (0x1F50, 0x1F57); (0x1F59, 0x1F59); (0x1F5B, 0x1F5B); (0x1F5D, 0x1F5D); (0x1F5F, 0x1F7D); (0x1F80, 0x1FB4);
    (0x1FB6, 0x1FBC); (0x1FBE, 0x1FBE); (0x1FC2, 0x1FC4); (0x1FC6, 0x1FCC); (0x1FD0, 0x1FD3); (0x1FD6, 0x1FDB);
    (0x1FE0, 0x1FEC); (0x1FF2, 0x1FF4); (0x1FF6, 0x1FFC); (0x2071, 0x2071); (0x207F, 0x207F); (0x2090, 0x209C);
    (0x2102, 0x2102); (0x2107, 0x2107); (0x210A, 0x2113); (0x2115, 0x2115); (0x2119, 0x211D); (0x2124, 0x2124);
    (0x2126, 0x2126); (0x2128, 0x2128); (0x212A, 0x212D); (0x212F, 0x2134); (0x2139, 0x2139); (0x213C, 0x213F);
    (0x2145, 0x2149); (0x214E, 0x214E); (0x2160, 0x217F); (0x2183, 0x2184); (0x24B6, 0x24E9); (0x2C00, 0x2CE4);
    (0x2CEB, 0x2CEE); (0x2CF2, 0x2CF3); (0x2D00, 0x2D25); (0x2D27, 0x2D27); (0x2D2D, 0x2D2D); (0xA640, 0xA66D);
    (0xA680, 0xA69D); (0xA722, 0xA787); (0xA78B, 0xA78E); (0xA790, 0xA7CA); (0xA7D0, 0xA7D1); (0xA7D3, 0xA7D3);
    (0xA7D5, 0xA7D9); (0xA7F5, 0xA7F6); (0xA7F8, 0xA7FA); (0xAB30, 0xAB5A); (0xAB5C, 0xAB68); (0xAB70, 0xABBF);
    (0xFB00, 0xFB06); (0xFB13, 0xFB17); (0xFF21, 0xFF3A); (0xFF41, 0xFF5A); (0x10400, 0x1044F); (0x104B0, 0x104D3);
    (0x104D8, 0x104FB); (0x10570, 0x1057A); (0x1057C, 0x1058A); (0x1058C, 0x10592); (0x10594, 0x10595); (0x10597, 0x105A1);
    (0x105A3, 0x105B1); (0x105B3, 0x105B9); (0x105BB, 0x105BC); (0x10780, 0x10780); (0x10783, 0x10785); (0x10787, 0x107B0);
    (0x107B2, 0x107BA); (0x10C80, 0x10CB2); (0x10CC0, 0x10CF2); (0x118A0, 0x118DF); (0x16E40, 0x16E7F); (0x1D400, 0x1D454);
    (0x1D456, 0x1D49C); (0x1D49E, 0x1D49F); (0x1D4A2, 0x1D4A2); (0x1D4A5, 0x1D4A6); (0x1D4A9, 0x1D4AC); (0x1D4AE, 0x1D4B9);
    (0x1D4BB, 0x1D4BB); (0x1D4BD, 0x1D4C3); (0x1D4C5, 0x1D505); (0x1D507, 0x1D50A); (0x1D50D, 0x1D514); (0x1D516, 0x1D51C);
    (0x1D51E, 0x1D539); (0x1D53B, 0x1D53E); (0x1D540, 0x1D544); (0x1D546, 0x1D546); (0x1D54A, 0x1D550); (0x1D552, 0x1D6A5);
    (0x1D6A8, 0x1D6C0); (0x1D6C2, 0x1D6DA); (0x1D6DC, 0x1D6FA); (0x1D6FC, 0x1D714); (0x1D716, 0x1D734); (0x1D736, 0x1D74E);
    (0x1D750, 0x1D76E); (0x1D770, 0x1D788); (0x1D78A, 0x1D7A8); (0x1D7AA, 0x1D7C2); (0x1D7C4, 0x1D7CB); (0x1DF00, 0x1DF09);
    (0x1DF0B, 0x1DF1E); (0x1E900, 0x1E943); (0x1F130, 0x1F149); (0x1F150, 0x1F169); (0x1F170, 0x1F189) ].

(** The code points [str.isspace], [str.strip] and the pattern [\s] take
    as whitespace, as ranges [(first, last)]. *)
Definition space_ranges : list (Z * Z) :=
  [
    (0x9, 0xD); (0x1C, 0x20); (0x85, 0x85); (0xA0, 0xA0); (0x1680, 0x1680); (0x2000, 0x200A);
    (0x2028, 0x2029); (0x202F, 0x202F); (0x205F, 0x205F); (0x3000, 0x3000) ].


Definition in_ranges (ranges : list (Z * Z)) (c : Z) : bool :=
  existsb (fun '(first, last) => (first <=? c) && (c <=? last)) ranges.

(** [_PyUnicode_IsCaseIgnorable]. *)
Definition case_ignorable (c : Z) : bool := in_ranges case_ignorable_ranges c.

(** [_PyUnicode_IsCased]. *)
Definition cased (c : Z) : bool := in_ranges cased_ranges c.

(** [Py_UNICODE_ISSPACE]. *)
Definition is_space (c : Z) : bool := in_ranges space_ranges c.

Fixpoint lookup_lower (ranges : list (Z * Z * Z * Z)) (c : Z) : Z :=
  match ranges with
  | [] => c
  | (first, last, delta, stride) :: ranges' =>
      if (first <=? c) && (c <=? last) && ((c - first) mod stride =? 0)
      then c + delta
      else lookup_lower ranges' c
  end.

(** [_PyUnicode_ToLowerFull]: the lower case of one code point. Only
    [U+0130] has a lower case of more than one code point. *)
Definition to_lower_full (c : Z) : list Z :=
  if c <? 0x80 then [if (0x41 <=? c) && (c <=? 0x5A) then c + 32 else c]
  else if c =? 0x130 then [0x69; 0x307]
  else [lookup_lower lower_ranges c].

(** The first code point that is not case-ignorable, if any. *)
Fixpoint skip_ignorable (l : list Z) : option Z :=
  match l with
  | [] => None
  | c :: l' => if case_ignorable c then skip_ignorable l' else Some c
  end.

(** [handle_capital_sigma]: a capital sigma is final when a cased letter
    comes before it and none comes after it, case-ignorable code points
    being skipped on both sides. [before] is read backwards. *)
Definition final_sigma (before after : list Z) : bool :=
  match skip_ignorable before with
  | Some c =>
      cased c &&
      match skip_ignorable after with
      | Some c' => negb (cased c')
      | None => true
      end
  | None => false
  end.

(** [do_lower]: every code point in turn, [before] holding the code
    points already passed, the last one first. *)
Fixpoint lower_points (before l : list Z) : list Z :=
  match l with
  | [] => []
  | c :: rest =>
      (if c =? 0x3A3
       then [if final_sigma before rest then 0x3C2 else 0x3C3]
       else to_lower_full c)
      ++ lower_points (c :: before) rest
  end.

End Unicode.

(* ===================================================================== *)
(** ** Python strings *)
(* ===================================================================== *)

Module PyStr.

(** [s.lower()]: the full Unicode lower-casing of CPython, final sigma
    included. *)
Definition lower (s : string) : string :=
  Unicode.encode (Unicode.lower_points [] (Unicode.decode s)).

(** [hay.startswith(needle)]. *)
Fixpoint startswith (hay needle : string) : bool :=
  match needle, hay with
  | EmptyString, _ => true
  | String _ _, EmptyString => false
  | String a needle', String b hay' =>
      if Ascii.eqb a b then startswith hay' needle' else false
  end.

(** [needle in hay]: [needle] occurs in [hay] at some offset. The empty
    string occurs in every string. *)
Fixpoint contains (hay needle : string) : bool :=
  startswith hay needle ||
  match hay with
  | EmptyString => false
  | String _ hay' => contains hay' needle
  end.

(** Truthiness of a string: [not s] holds exactly for the empty string. *)
Definition truthy (s : string) : bool :=
  match s with
  | EmptyString => false
  | String _ _ => true
  end.

(** Truthiness of an [Optional[str]]: [None] and [""] are falsy. *)
Definition opt_truthy (o : option string) : bool :=
  match o with
  | Some s => truthy s
  | None => false
  end.

(** [x in xs] for a list of strings. *)
Definition mem (x : string) (xs : list string) : bool :=
  existsb (String.eqb x) xs.

End PyStr.

(* ===================================================================== *)
(** ** Python floats *)
(* ===================================================================== *)

Module PyFloat.

(** [float(n)] for a Python int: the nearest binary64 value. It is exact
    below [2^53]; the counters converted here are list lengths. *)
Definition of_Z (n : Z) : float :=
  SF2Prim (binary_normalize prec emax n 0 false).

Definition of_nat (n : nat) : float := of_Z (Z.of_nat n).

(** Conversion of an int operand in mixed arithmetic: an int whose nearest
    binary64 value is not finite raises [OverflowError] ([None] here). *)
Definition of_int (n : Z) : option float :=
  let f := of_Z n in
  if PrimFloat.is_infinity f then None else Some f.

(** The built-in [max(a, b)]: keeps [a] unless [b > a]. *)
Definition max (a b : float) : float :=
  if PrimFloat.ltb a b then b else a.

(** The built-in [min(a, b)]: keeps [a] unless [b < a]. *)
Definition min (a b : float) : float :=
  if PrimFloat.ltb b a then b else a.

(** [a <= b] as Python evaluates it (false as soon as one side is NaN). *)
Definition le (a b : float) : Prop := PrimFloat.leb a b = true.

End PyFloat.

(* ===================================================================== *)
(** ** [hashlib.md5]: RFC 1321 over 32-bit words held in [Z] *)
(* ===================================================================== *)

Module MD5.

Definition mask32 : Z := 0xFFFFFFFF.

(** Addition modulo [2^32]. *)
Definition add32 (x y : Z) : Z := Z.land (x + y) mask32.

(** Bitwise complement of a 32-bit word. *)
Definition not32 (x : Z) : Z := Z.lxor x mask32.

(** Left rotation of a 32-bit word by [c] bits, [0 < c < 32]. *)
Definition rotl32 (x c : Z) : Z :=
  Z.lor (Z.land (Z.shiftl x c) mask32) (Z.shiftr x (32 - c)).

(** Per-round shift amounts. *)
Definition S_table : list Z :=
  [ 7; 12; 17; 22; 7; 12; 17; 22; 7; 12; 17; 22; 7; 12; 17; 22;
    5;  9; 14; 20; 5;  9; 14; 20; 5;  9; 14; 20; 5;  9; 14; 20;
    4; 11; 16; 23; 4; 11; 16; 23; 4; 11; 16; 23; 4; 11; 16; 23;
    6; 10; 15; 21; 6; 10; 15; 21; 6; 10; 15; 21; 6; 10; 15; 21 ].

(** [K_table[i] = floor(2^32 * |sin(i + 1)|)]. *)
Definition K_table : list Z :=
  [ 0xd76aa478; 0xe8c7b756; 0x242070db; 0xc1bdceee; 0xf57c0faf; 0x4787c62a; 0xa8304613; 0xfd469501;
    0x698098d8; 0x8b44f7af; 0xffff5bb1; 0x895cd7be; 0x6b901122; 0xfd987193; 0xa679438e; 0x49b40821;
    0xf61e2562; 0xc040b340; 0x265e5a51; 0xe9b6c7aa; 0xd62f105d; 0x02441453; 0xd8a1e681; 0xe7d3fbc8;
    0x21e1cde6; 0xc33707d6; 0xf4d50d87; 0x455a14ed; 0xa9e3e905; 0xfcefa3f8; 0x676f02d9; 0x8d2a4c8a;
    0xfffa3942; 0x8771f681; 0x6d9d6122; 0xfde5380c; 0xa4beea44; 0x4bdecfa9; 0xf6bb4b60; 0xbebfbc70;
    0x289b7ec6; 0xeaa127fa; 0xd4ef3085; 0x04881d05; 0xd9d4d039; 0xe6db99e5; 0x1fa27cf8; 0xc4ac5665;
    0xf4292244; 0x432aff97; 0xab9423a7; 0xfc93a039; 0x655b59c3; 0x8f0ccc92; 0xffeff47d; 0x85845dd1;
    0x6fa87e4f; 0xfe2ce6e0; 0xa3014314; 0x4e0811a1; 0xf7537e82; 0xbd3af235; 0x2ad7d2bb; 0xeb86d391 ].

(** The message as bytes ([str.encode()]). *)
Definition bytes_of_string (s : string) : list Z :=
  List.map (fun c => Z.of_nat (nat_of_ascii c)) (list_ascii_of_string s).

(** [n] as [k] little-endian bytes. *)
Fixpoint le_bytes (k : nat) (n : Z) : list Z :=
  match k with
  | O => []
  | S k' => Z.land n 0xFF :: le_bytes k' (Z.shiftr n 8)
  end.

(** A little-endian byte sequence as a number. *)
Fixpoint le_word (bs : list Z) : Z :=
  match bs with
  | [] => 0
  | b :: bs' => b + 256 * le_word bs'
  end.

(** Padding: one [0x80] byte, zeros up to 56 modulo 64, then the bit length
    of the message on 64 bits. *)
Definition pad (msg : list Z) : list Z :=
  let len := Z.of_nat (List.length msg) in
  let zeros := Z.to_nat ((55 - len) mod 64) in
  msg ++ [0x80] ++ List.repeat 0 zeros ++ le_bytes 8 (Z.land (8 * len) 0xFFFFFFFFFFFFFFFF).

(** Cut a list into [n] consecutive groups of [size] elements. *)
Fixpoint groups (size n : nat) (l : list Z) : list (list Z) :=
  match n with
  | O => []
  | S n' => firstn size l :: groups size n' (skipn size l)
  end.

(** The sixteen 32-bit words of a 64-byte block. *)
Definition block_words (block : list Z) : list Z :=
  List.map le_word (groups 4 16 block).

Record state := mkState { sa : Z; sb : Z; sc : Z; sd : Z }.

Definition init : state :=
  mkState 0x67452301 0xefcdab89 0x98badcfe 0x10325476.

(** Operation [i] of the compression function on the words [m]. *)
Definition step (m : list Z) (st : state) (i : nat) : state :=
  let '(mkState a b c d) := st in
  let iz := Z.of_nat i in
  let '(f, g) :=
    if (i <? 16)%nat then
      (Z.lor (Z.land b c) (Z.land (not32 b) d), iz)
    else if (i <? 32)%nat then
      (Z.lor (Z.land d b) (Z.land (not32 d) c), (5 * iz + 1) mod 16)
    else if (i <? 48)%nat then
      (Z.lxor (Z.lxor b c) d, (3 * iz + 5) mod 16)
    else
      (Z.lxor c (Z.lor b (not32 d)), (7 * iz) mod 16) in
  let f' := add32 (add32 (add32 f a) (nth i K_table 0)) (nth (Z.to_nat g) m 0) in
  mkState d (add32 b (rotl32 f' (nth i S_table 0))) b c.

(** One block: 64 operations, then the feed-forward addition. *)
Definition compress (st : state) (block : list Z) : state :=
  let m := block_words block in
  let st' := fold_left (step m) (seq 0 64) st in
  mkState (add32 (sa st) (sa st')) (add32 (sb st) (sb st'))
          (add32 (sc st) (sc st')) (add32 (sd st) (sd st')).

(** [hashlib.md5(msg).digest()]: sixteen bytes. *)
Definition digest (msg : list Z) : list Z :=
  let padded := pad msg in
  let st := fold_left compress (groups 64 (List.length padded / 64) padded) init in
  le_bytes 4 (sa st) ++ le_bytes 4 (sb st) ++ le_bytes 4 (sc st) ++ le_bytes 4 (sd st).

Definition hex_digit (n : Z) : ascii :=
  if n <? 10 then ascii_of_nat (Z.to_nat (48 + n))
  else ascii_of_nat (Z.to_nat (87 + n)).

Fixpoint hex_of_bytes (bs : list Z) : string :=
  match bs with
  | [] => EmptyString
  | b :: bs' => String (hex_digit (Z.shiftr b 4))
                  (String (hex_digit (Z.land b 0xF)) (hex_of_bytes bs'))
  end.

(** [hashlib.md5(s.encode()).hexdigest()]. *)
Definition hexdigest (s : string) : string :=
  hex_of_bytes (digest (bytes_of_string s)).

End MD5.

(* ===================================================================== *)
(** ** [Job] *)
(* ===================================================================== *)

(** A [datetime]: microseconds since a fixed epoch. *)
Definition datetime := Z.

(** One day, in microseconds. *)
Definition day : Z := 86400 * 1000000.

(** [(later - earlier).days]: a [timedelta] is normalised with
    [0 <= seconds < 86400], so [days] is the floor of the difference. *)
Definition timedelta_days (later earlier : datetime) : Z :=
  (later - earlier) / day.

Record Job := mkJob {
  title : string;
  company : string;
  location : string;
  url : string;
  description : string;
  posted_date : option datetime;
  experience_level : option string;
  job_type : option string;
  salary_range : option string;
  source : string;
  score : float;
  job_id : option string
}.

(** The text hashed when the source gives no identifier:
    [f"{self.title}_{self.company}_{self.url}"]. *)
Definition fingerprint_content (j : Job) : string :=
  title j +:+ "_" +:+ company j +:+ "_" +:+ url j.

Definition set_job_id (j : Job) (id : string) : Job :=
  mkJob (title j) (company j) (location j) (url j) (description j)
        (posted_date j) (experience_level j) (job_type j) (salary_range j)
        (source j) (score j) (Some id).

Definition set_score (j : Job) (s : float) : Job :=
  mkJob (title j) (company j) (location j) (url j) (description j)
        (posted_date j) (experience_level j) (job_type j) (salary_range j)
        (source j) s (job_id j).

(** [Job.__post_init__]: a falsy [job_id] ([None] or [""]) is replaced by
    the MD5 hex digest of the fingerprint content. *)
Definition post_init (j : Job) : Job :=
  if PyStr.opt_truthy (job_id j) then j
  else set_job_id j (MD5.hexdigest (fingerprint_content j)).

(** [Job.age_days]. *)
Definition age_days (now : datetime) (j : Job) : option Z :=
  match posted_date j with
  | Some d => Some (timedelta_days now d)
  | None => None
  end.

(* ===================================================================== *)
(** ** [ScoringEngine] *)
(* ===================================================================== *)

(** [config['filters']['location']]; a missing key reads as its default
    ([[]] or [False]). *)
Record LocationConfig := mkLocationConfig {
  excluded_locations : list string;
  remote_only : bool;
  preferred_locations : list string
}.

(** [config['filters']]; the keys read with [.get(key, [])] default to the
    empty list. *)
Record Filters := mkFilters {
  title_keywords : list string;
  preferred_keywords : list string;
  exclude_keywords : list string;
  required_keywords : list string;
  experience_levels : list string;
  location_config : LocationConfig
}.

(** [config['scoring']]: the weights are percentages, nothing makes them
    sum to 100. *)
Record Scoring := mkScoring {
  title_match_weight : float;
  keyword_match_weight : float;
  location_match_weight : float;
  recency_weight : float;
  min_score : float;
  max_results : nat
}.

Record Config := mkConfig {
  scoring : Scoring;
  filters : Filters
}.

Module ScoringEngine.

Import PyStr.

(** The counting loop shared by the title and keyword scores:
    [for keyword in keywords: if keyword.lower() in text_lower: matches += 1]. *)
Definition count_matches (keywords : list string) (text_lower : string) : nat :=
  fold_left
    (fun matches keyword =>
       if contains text_lower (lower keyword) then S matches else matches)
    keywords 0%nat.

(** [_score_title_match]. *)
Definition _score_title_match (cfg : Config) (title : string) : float :=
  if negb (truthy title) then 0%float
  else
    let title_lower := lower title in
    let total_keywords := List.length (title_keywords (filters cfg)) in
    let matches := count_matches (title_keywords (filters cfg)) title_lower in
    if (total_keywords =? 0)%nat then 50%float
    else (PyFloat.of_nat matches / PyFloat.of_nat total_keywords * 100)%float.

(** [_score_keyword_match]. *)
Definition _score_keyword_match (cfg : Config) (description : string) : float :=
  if negb (truthy description) then 0%float
  else
    let description_lower := lower description in
    let total_keywords := List.length (preferred_keywords (filters cfg)) in
    let matches := count_matches (preferred_keywords (filters cfg)) description_lower in
    if (total_keywords =? 0)%nat then 50%float
    else
      PyFloat.min 100%float
        (PyFloat.of_nat matches / PyFloat.of_nat (Nat.max 1 total_keywords) * 100)%float.

Definition remote_keywords : list string :=
  ["remote"; "worldwide"; "anywhere"; "distributed"]%string.

(** [_score_location_match]: each [for ... if ...: return] loop is the
    existence of a matching element. *)
Definition _score_location_match (cfg : Config) (location : string) : float :=
  if negb (truthy location) then 50%float
  else
    let location_lower := lower location in
    let lc := location_config (filters cfg) in
    if existsb (fun excluded => contains location_lower (lower excluded))
               (excluded_locations lc)
    then 0%float
    else if remote_only lc then
      if existsb (fun keyword => contains location_lower keyword) remote_keywords
      then 100%float
      else 10%float
    else if existsb (fun preferred => contains location_lower (lower preferred))
                    (preferred_locations lc)
    then 100%float
    else 50%float.

(** [_score_recency]; [now] is the value of [datetime.now()]. *)
Definition _score_recency (now : datetime) (posted_date : option datetime) : float :=
  match posted_date with
  | None => 50%float
  | Some posted =>
      let days_old := timedelta_days now posted in
      if days_old <=? 1 then 100%float
      else if days_old <=? 7 then 80%float
      else if days_old <=? 30 then 60%float
      else if days_old <=? 90 then 30%float
      else 10%float
  end.

(** [score_job]: the four weighted terms are added to [0.0] in source
    order, then clamped with [min(100.0, max(0.0, total_score))]. *)
Definition score_job (cfg : Config) (now : datetime) (job : Job) : float :=
  let w := scoring cfg in
  let total_score := 0%float in
  let title_score := _score_title_match cfg (title job) in
  let total_score := (total_score + title_score * (title_match_weight w / 100))%float in
  let keyword_score := _score_keyword_match cfg (description job) in
  let total_score := (total_score + keyword_score * (keyword_match_weight w / 100))%float in
  let location_score := _score_location_match cfg (location job) in
  let total_score := (total_score + location_score * (location_match_weight w / 100))%float in
  let recency_score := _score_recency now (posted_date job) in
  let total_score := (total_score + recency_score * (recency_weight w / 100))%float in
  PyFloat.min 100%float (PyFloat.max 0%float total_score).

(** [f"{job.title} {job.description}".lower()]. *)
Definition combined_text (job : Job) : string :=
  lower (title job +:+ " " +:+ description job).

(** [should_exclude_job]. *)
Definition should_exclude_job (cfg : Config) (job : Job) : bool :=
  let f := filters cfg in
  let text := combined_text job in
  if existsb (fun exclude_keyword => contains text (lower exclude_keyword))
             (exclude_keywords f)
  then true
  else if existsb (fun required_keyword => negb (contains text (lower required_keyword)))
                  (required_keywords f)
  then true
  else
    match experience_level job with
    | Some level =>
        if negb (Nat.eqb (List.length (experience_levels f)) 0) && truthy level then
          if negb (mem (lower level) (List.map lower (experience_levels f)))
          then true
          else false
        else false
    | None => false
    end.

End ScoringEngine.

(* ===================================================================== *)
(** ** [HttpClient] *)
(* ===================================================================== *)

(** What the program looks at in an [httpx.Response]. *)
Record Response := mkResponse {
  status_code : Z;
  text : string
}.

(** The exceptions that travel through [HttpClient.get]. *)
Inductive Exn :=
| HTTPStatusError (response : Response)
| RequestError (message : string)
| RuntimeError (message : string)
| OverflowError
| OtherError (message : string).

(** What the awaiting task observes, in order. *)
Inductive Event :=
| EvRequest (url : string)
| EvSleep (seconds : float).

(** The result of a call: a value or a raised exception. *)
Inductive Result (A : Type) :=
| Return (a : A)
| Raise (e : Exn).
Arguments Return {A} a.
Arguments Raise {A} e.

(** The environment of one call of [get]: the successive readings of
    [time.time()] and what [self.client.get] does at each attempt. *)
Record World := mkWorld {
  time_at : nat -> float;
  transport : nat -> Exn + Response
}.

Record HttpClient := mkHttpClient {
  request_delay : float;
  timeout : float;
  max_retries : Z;
  last_request_time : gmap string float;
  user_agent : string
}.

Module Http.

Definition set_last_request_time (c : HttpClient) (m : gmap string float) : HttpClient :=
  mkHttpClient (request_delay c) (timeout c) (max_retries c) m (user_agent c).

(** [response.raise_for_status()]: httpx raises [HTTPStatusError] unless the
    status is a 2xx. *)
Definition raise_for_status (r : Response) : Result Response :=
  if (200 <=? status_code r) && (status_code r <=? 299) then Return r
  else Raise (HTTPStatusError r).

(** [except (httpx.HTTPStatusError, httpx.RequestError)]. *)
Definition caught (e : Exn) : bool :=
  match e with
  | HTTPStatusError _ | RequestError _ => true
  | _ => false
  end.

(** [(2 ** attempt) * self.request_delay]: the int [2 ** attempt] is
    converted to a float before the product. *)
Definition backoff_delay (request_delay : float) (attempt : nat) : option float :=
  match PyFloat.of_int (2 ^ Z.of_nat attempt) with
  | Some p => Some (p * request_delay)%float
  | None => None
  end.

(** The body of the [try] at one attempt: the request, then the status
    check. *)
Definition try_once (w : World) (attempt : nat) : Result Response :=
  match transport w attempt with
  | inr response => raise_for_status response
  | inl e => Raise e
  end.

(** [f"Failed to fetch {url} after {self.max_retries + 1} attempts"]. *)
Definition failed_message (url : string) (max_retries : Z) : string :=
  "Failed to fetch " +:+ url +:+ " after "
    +:+ NilZero.string_of_int (Z.to_int (max_retries + 1)) +:+ " attempts".

Section Get.

(** [httpx.URL(url).host]. *)
Variable url_host : string -> string.

(** The rate-limiting gate before the first attempt. It reads the clock
    (reading [0]) only when the host has been requested before. *)
Definition rate_limit (c : HttpClient) (w : World) (url : string) : list Event * nat :=
  match last_request_time c !! url_host url with
  | Some last =>
      let elapsed := (time_at w 0 - last)%float in
      if PrimFloat.ltb elapsed (request_delay c)
      then ([EvSleep (request_delay c - elapsed)%float], 1%nat)
      else ([], 1%nat)
  | None => ([], 0%nat)
  end.

(** [for attempt in range(self.max_retries + 1)], with [remaining]
    iterations left, [attempt] the loop variable and [reads] the number of
    clock readings made so far. *)
Fixpoint get_loop (w : World) (url : string) (remaining attempt reads : nat)
    (c : HttpClient) : Result Response * HttpClient * list Event :=
  match remaining with
  | O =>
      (Raise (RuntimeError (failed_message url (max_retries c))), c, [])
  | S remaining' =>
      let c1 := set_last_request_time c
                  (<[url_host url := time_at w reads]> (last_request_time c)) in
      match try_once w attempt with
      | Return response => (Return response, c1, [EvRequest url])
      | Raise e =>
          if caught e then
            if Z.of_nat attempt =? max_retries c then
              (Raise e, c1, [EvRequest url])
            else
              match backoff_delay (request_delay c) attempt with
              | None => (Raise OverflowError, c1, [EvRequest url])
              | Some delay =>
                  let '(r, c2, evs) :=
                    get_loop w url remaining' (S attempt) (S reads) c1 in
                  (r, c2, EvRequest url :: EvSleep delay :: evs)
              end
          else (Raise e, c1, [EvRequest url])
      end
  end.

(** [HttpClient.get]. *)
Definition get (c : HttpClient) (w : World) (url : string)
    : Result Response * HttpClient * list Event :=
  let '(waits, reads) := rate_limit c w url in
  let '(r, c', evs) :=
    get_loop w url (Z.to_nat (max_retries c + 1)) 0 reads c in
  (r, c', waits ++ evs).

End Get.

End Http.

(* ===================================================================== *)
(** ** [JobDatabase] *)
(* ===================================================================== *)

(** A row of table [jobs]: the columns copied from the job, and the three
    columns the table maintains itself. *)
Record Row := mkRow {
  row_job : Job;
  first_seen : datetime;
  last_seen : datetime;
  is_new : bool
}.

(** A write statement sent to the database. *)
Inductive DbWrite :=
| InsertOrReplace (key : string)
| UpdateSeen (key : string)
| MarkAllSeen.

Module JobDatabase.

(** The primary key of a job. Every [Job] has been through
    [__post_init__], which leaves an identifier in [job_id]. *)
Definition key (job : Job) : string :=
  match job_id job with
  | Some k => k
  | None => EmptyString
  end.

(** [is_new_job]: no row has this [job_id]. *)
Definition is_new_job (db : gmap string Row) (job : Job) : bool :=
  match db !! key job with
  | None => true
  | Some _ => false
  end.

(** [save_job]: [INSERT OR REPLACE] of the whole row for a new job, the
    timestamps taking their default [CURRENT_TIMESTAMP]; otherwise an
    [UPDATE] of [last_seen] and [score] on the row with this key, if any. *)
Definition save_job (now : datetime) (db : gmap string Row) (job : Job) (is_new : bool)
    : gmap string Row :=
  if is_new then <[key job := mkRow job now now true]> db
  else
    alter (fun '(mkRow j seen _ flag) => mkRow (set_score j (score job)) seen now flag)
          (key job) db.

(** [get_new_jobs_count]. *)
Definition get_new_jobs_count (db : gmap string Row) : nat :=
  size (filter (fun kr => is_new kr.2 = true) db).

(** [mark_all_as_seen]. *)
Definition mark_all_as_seen (db : gmap string Row) : gmap string Row :=
  (fun r => mkRow (row_job r) (first_seen r) (last_seen r) false) <$> db.

End JobDatabase.

(* ===================================================================== *)
(** ** [BaseScraper] helpers and [HTMLScraper] *)
(* ===================================================================== *)

Module BaseScraper.

(** [text.lstrip()], on code points. *)
Fixpoint lstrip (l : list Z) : list Z :=
  match l with
  | [] => []
  | c :: l' => if Unicode.is_space c then lstrip l' else l
  end.

(** [text.rstrip()], on code points. *)
Fixpoint rstrip (l : list Z) : list Z :=
  match l with
  | [] => []
  | c :: l' =>
      match rstrip l' with
      | [] => if Unicode.is_space c then [] else [c]
      | r => c :: r
      end
  end.

(** [text.strip()]. *)
Definition strip (l : list Z) : list Z := rstrip (lstrip l).

(** [re.sub(r'\s+', ' ', text)], on code points; [in_run] tells whether
    the previous code point was whitespace. *)
Fixpoint collapse (in_run : bool) (l : list Z) : list Z :=
  match l with
  | [] => []
  | c :: l' =>
      if Unicode.is_space c then
        if in_run then collapse true l' else 0x20 :: collapse true l'
      else c :: collapse false l'
  end.

(** [s.replace(old, new)] for a non-empty [old]: occurrences are replaced
    from left to right without overlap; [skip] counts the characters of the
    current occurrence still to drop. *)
Fixpoint replace_from (old new : string) (skip : nat) (s : string) : string :=
  match s with
  | EmptyString => EmptyString
  | String c s' =>
      match skip with
      | S k => replace_from old new k s'
      | O =>
          if PyStr.startswith s old
          then new +:+ replace_from old new (String.length old - 1) s'
          else String c (replace_from old new 0 s')
      end
  end.

Definition replace (old new s : string) : string := replace_from old new 0 s.

(** [_clean_text]. *)
Definition _clean_text (text : string) : string :=
  if negb (PyStr.truthy text) then EmptyString
  else
    let text := Unicode.encode (collapse false (strip (Unicode.decode text))) in
    replace "&gt;" ">" (replace "&lt;" "<" (replace "&amp;" "&" text)).

End BaseScraper.

(** What [_scrape_html_site] reads from one element selected by
    [job_selector]: the text of the title, company and location
    sub-elements when they exist, and the link sub-element with its [href]
    attribute when it has one. *)
Record Element := mkElement {
  title_elem : option string;
  company_elem : option string;
  location_elem : option string;
  url_elem : option (option string)
}.

Module HTMLScraper.

Import BaseScraper.

(** The body of the loop of [_scrape_html_site] for one element; [None]
    when the element is skipped ([continue], or an exception swallowed by
    [except Exception]). [now] is the value of [datetime.now()]. *)
Definition job_of_element (site_name base_url : string) (now : datetime)
    (element : Element) : option Job :=
  match title_elem element, company_elem element with
  | Some title_text, Some company_text =>
      let title := _clean_text title_text in
      let company := _clean_text company_text in
      let location :=
        match location_elem element with
        | Some location_text => _clean_text location_text
        | None => "Remote"%string
        end in
      let href :=
        match url_elem element with
        | Some attribute => attribute
        | None => Some EmptyString
        end in
      match href with
      | None => None
      | Some href =>
          let job_url :=
            if PyStr.startswith href "http" then href else base_url +:+ href in
          Some (post_init
                  (mkJob title company location job_url EmptyString (Some now)
                         None None None ("html_" +:+ site_name) 0%float None))
      end
  | _, _ => None
  end.

(** The loop of [_scrape_html_site] over [job_elements[:50]]; [clock i] is
    the time at which element [i] is handled. *)
Fixpoint jobs_from (site_name base_url : string) (clock : nat -> datetime)
    (i : nat) (elements : list Element) : list Job :=
  match elements with
  | [] => []
  | element :: rest =>
      match job_of_element site_name base_url (clock i) element with
      | Some job => job :: jobs_from site_name base_url clock (S i) rest
      | None => jobs_from site_name base_url clock (S i) rest
      end
  end.

(** [_scrape_html_site], from the elements [soup.select] returned. *)
Definition _scrape_html_site (site_name base_url : string) (clock : nat -> datetime)
    (job_elements : list Element) : list Job :=
  jobs_from site_name base_url clock 0 (firstn 50 job_elements).

End HTMLScraper.

(* ===================================================================== *)
(** ** [JobHunter.run] *)
(* ===================================================================== *)

(** The dictionary [run] returns, the elapsed time apart, together with
    what the call leaves behind: the lists it built, the jobs handed to the
    notifier, the database and the write statements it issued. *)
Record RunResult := mkRunResult {
  total_scraped : nat;
  qualified_jobs : list Job;
  new_jobs : list Job;
  notification_jobs : list Job;
  database : gmap string Row;
  writes : list DbWrite;
  dry_run : bool
}.

Module JobHunter.

Import ScoringEngine JobDatabase.

Definition opt_eqb {A : Type} (eqb : A -> A -> bool) (x y : option A) : bool :=
  match x, y with
  | Some a, Some b => eqb a b
  | None, None => true
  | _, _ => false
  end.

(** [a == b] on jobs, the field-wise comparison a dataclass generates. *)
Definition job_eqb (a b : Job) : bool :=
  String.eqb (title a) (title b) && String.eqb (company a) (company b)
  && String.eqb (location a) (location b) && String.eqb (url a) (url b)
  && String.eqb (description a) (description b)
  && opt_eqb Z.eqb (posted_date a) (posted_date b)
  && opt_eqb String.eqb (experience_level a) (experience_level b)
  && opt_eqb String.eqb (job_type a) (job_type b)
  && opt_eqb String.eqb (salary_range a) (salary_range b)
  && String.eqb (source a) (source b)
  && PrimFloat.eqb (score a) (score b)
  && opt_eqb String.eqb (job_id a) (job_id b).

(** [job in jobs]. *)
Definition job_in (job : Job) (jobs : list Job) : bool :=
  existsb (job_eqb job) jobs.

(** The state of the scoring loop: the position in [all_jobs] and the two
    lists being built. *)
Record Acc := mkAcc {
  position : nat;
  acc_qualified : list Job;
  acc_new : list Job
}.

(** One iteration of [for job in all_jobs]; [clock i] is the value of
    [datetime.now()] while job [i] is scored. *)
Definition score_step (cfg : Config) (clock : nat -> datetime)
    (db : gmap string Row) (acc : Acc) (job : Job) : Acc :=
  let next := S (position acc) in
  if should_exclude_job cfg job then
    mkAcc next (acc_qualified acc) (acc_new acc)
  else
    let job := set_score job (score_job cfg (clock (position acc)) job) in
    if PrimFloat.ltb (score job) (min_score (scoring cfg)) then
      mkAcc next (acc_qualified acc) (acc_new acc)
    else
      mkAcc next (acc_qualified acc ++ [job])
            (if is_new_job db job then acc_new acc ++ [job] else acc_new acc).

(** One iteration of [for job in qualified_jobs] in a real run;
    [stamp i] is [CURRENT_TIMESTAMP] at the [i]-th save. *)
Definition save_step (stamp : nat -> datetime) (new_jobs : list Job)
    (st : nat * gmap string Row * list DbWrite) (job : Job)
    : nat * gmap string Row * list DbWrite :=
  let '(i, db, log) := st in
  let is_new := job_in job new_jobs in
  (S i, save_job (stamp i) db job is_new,
   log ++ [if is_new then InsertOrReplace (key job) else UpdateSeen (key job)]).

(** [run], from the scraped [all_jobs] on. *)
Definition run (cfg : Config) (clock stamp : nat -> datetime) (dry_run : bool)
    (all_jobs : list Job) (db : gmap string Row) : RunResult :=
  let acc := fold_left (score_step cfg clock db) all_jobs (mkAcc 0 [] []) in
  let qualified_jobs := acc_qualified acc in
  let new_jobs := acc_new acc in
  let '(_, db1, log1) :=
    if negb dry_run
    then fold_left (save_step stamp new_jobs) qualified_jobs (0%nat, db, [])
    else (0%nat, db, []) in
  let notification_jobs := if negb dry_run then new_jobs else qualified_jobs in
  let '(db2, log2) :=
    if negb dry_run && negb (Nat.eqb (List.length new_jobs) 0)
    then (mark_all_as_seen db1, log1 ++ [MarkAllSeen])
    else (db1, log1) in
  mkRunResult (List.length all_jobs) qualified_jobs new_jobs notification_jobs
              db2 log2 dry_run.

(** The three counts of the returned dictionary. *)
Definition counts (r : RunResult) : nat * nat * nat :=
  (total_scraped r, List.length (qualified_jobs r), List.length (new_jobs r)).

End JobHunter.

(* ===================================================================== *)
(** ** [Notifier]: the ranking of the report *)
(* ===================================================================== *)

Module Notifier.

(** One step of a stable sort by decreasing score: [job], which comes
    before the jobs of [ranked] in the input, passes the jobs that score
    strictly more and stops before the first one that does not. *)
Fixpoint insert_by_score (job : Job) (ranked : list Job) : list Job :=
  match ranked with
  | [] => [job]
  | other :: rest =>
      if PrimFloat.ltb (score job) (score other)
      then other :: insert_by_score job rest
      else job :: ranked
  end.

(** [sorted(jobs, key=lambda j: j.score, reverse=True)]: the built-in sort
    is stable, also with [reverse=True]. *)
Definition sorted_by_score (jobs : list Job) : list Job :=
  fold_right insert_by_score [] jobs.


(** [sorted_jobs[:5]], the jobs of the Discord message. *)
Definition discord_jobs (jobs : list Job) : list Job :=
  firstn 5 (sorted_by_score jobs).

End Notifier.

(* ===================================================================== *)
(** ** [JobHunter._init_scrapers] and the site flags *)
(* ===================================================================== *)

(** The four scraper classes. *)
Inductive ScraperKind := Lever | Greenhouse | Ashby | Html.

Module Scrapers.

(** [self.config['sites'].get(key, True)]: a site that the configuration
    does not mention is enabled. *)
Definition site_flag (sites : gmap string bool) (key : string) : bool :=
  match sites !! key with
  | Some flag => flag
  | None => true
  end.

(** The keys of [lever_companies], [greenhouse_companies],
    [ashby_companies] and [html_sites]. *)
Definition endpoints (kind : ScraperKind) : list string :=
  match kind with
  | Lever => ["solana"; "avax"; "bnb_chain"]
  | Greenhouse => ["block"; "a16z"; "animoca"]
  | Ashby => ["dragonfly"; "pantera"]
  | Html => ["web3_career"; "crypto_careers"; "cryptojobslist"]
  end%string.

(** The key of the flag of an endpoint: [f'{company_name}_jobs'] for the
    three API scrapers, the site name itself for the HTML scraper. *)
Definition flag_key (kind : ScraperKind) (name : string) : string :=
  match kind with
  | Html => name
  | _ => name +:+ "_jobs"
  end.

(** The endpoints the loop of [scrape] does not skip. *)
Definition scraped_endpoints (sites : gmap string bool) (kind : ScraperKind)
    : list string :=
  List.filter (fun name => site_flag sites (flag_key kind name)) (endpoints kind).

(** [_init_scrapers]. *)
Definition _init_scrapers (sites : gmap string bool) : list ScraperKind :=
  (if existsb (fun company => site_flag sites (company +:+ "_jobs"))
              ["solana"; "avax"; "bnb_chain"]%string
   then [Lever] else [])
  ++ (if existsb (fun company => site_flag sites (company +:+ "_jobs"))
                 ["block"; "a16z"; "animoca"]%string
      then [Greenhouse] else [])
  ++ (if existsb (fun company => site_flag sites (company +:+ "_jobs"))
                 ["dragonfly"; "pantera"]%string
      then [Ashby] else [])
  ++ (if existsb (fun site => site_flag sites site)
                 ["web3_career"; "crypto_careers"; "cryptojobslist"]%string
      then [Html] else []).

End Scrapers.

(* ===================================================================== *)
(** ** Vocabulary of the specification *)
(* ===================================================================== *)

Section Vocabulary.

Import PyStr ScoringEngine.

(** [needle] is a substring of [hay]. *)
Definition occurs_in (needle hay : string) : Prop :=
  exists pre post, hay = pre +:+ needle +:+ post.

(** [needle] is a substring of [hay] when letter case is ignored. *)
Definition occurs_ci (needle hay : string) : Prop :=
  occurs_in (PyStr.lower needle) (PyStr.lower hay).

(** Some element of [needles] is a case-insensitive substring of [hay]. *)
Definition any_occurs_ci (needles : list string) (hay : string) : Prop :=
  exists needle, In needle needles /\ occurs_ci needle hay.

(** The number of elements of [needles] that are case-insensitive
    substrings of [hay], counted with a test. *)
Definition present (needles : list string) (hay : string) : nat :=
  List.length
    (List.filter (fun needle => PyStr.contains (PyStr.lower hay) (PyStr.lower needle))
                 needles).

(** The first rule of exclusion, over the lower-cased text
    [title + " " + description]: an exclude keyword, lower-cased, occurs. *)
Definition has_excluded_keyword (cfg : Config) (job : Job) : Prop :=
  exists k, In k (exclude_keywords (filters cfg)) /\
            occurs_in (lower k) (lower (title job +:+ " " +:+ description job)).

(** The second rule: a required keyword, lower-cased, does not occur. *)
Definition lacks_required_keyword (cfg : Config) (job : Job) : Prop :=
  exists k, In k (required_keywords (filters cfg)) /\
            ~ occurs_in (lower k) (lower (title job +:+ " " +:+ description job)).

(** The third rule: levels are filtered, and the job declares a
    non-empty level whose lower case is not the lower case of an allowed
    level. *)
Definition level_not_allowed (cfg : Config) (job : Job) : Prop :=
  experience_levels (filters cfg) <> [] /\
  exists level, experience_level job = Some level /\ level <> EmptyString /\
                ~ In (lower level) (List.map lower (experience_levels (filters cfg))).

(** Exclusion as the claim words it, over a text [text]: the keywords are
    searched as they are configured, and the declared level is looked up
    as it is declared. *)
Definition stated_exclusion (text : string) (cfg : Config) (job : Job) : Prop :=
  (exists k, In k (exclude_keywords (filters cfg)) /\ occurs_in k text) \/
  (exists k, In k (required_keywords (filters cfg)) /\ ~ occurs_in k text) \/
  (experience_levels (filters cfg) <> [] /\
   exists level, experience_level job = Some level /\
                 ~ In level (experience_levels (filters cfg))).

(** The number of requests among the events. *)
Definition requests (evs : list Event) : nat :=
  List.length (List.filter (fun ev => match ev with EvRequest _ => true | _ => false end) evs).

(** The schedule of a call whose attempts all fail: [retries] times a
    request followed by a sleep of [2^attempt * request_delay], the attempt
    number starting at [first], then a last request. *)
Fixpoint retry_schedule (url : string) (request_delay : float)
    (first retries : nat) : list Event :=
  match retries with
  | O => [EvRequest url]
  | S retries' =>
      EvRequest url
      :: EvSleep (PyFloat.of_Z (2 ^ Z.of_nat first) * request_delay)%float
      :: retry_schedule url request_delay (S first) retries'
  end.

(** The jobs the scoring loop keeps, from position [i] on: the jobs that
    are not excluded, each with its score, whose score is not below
    [min_score]. *)
Fixpoint qualified_from (cfg : Config) (clock : nat -> datetime) (i : nat)
    (jobs : list Job) : list Job :=
  match jobs with
  | [] => []
  | job :: rest =>
      if ScoringEngine.should_exclude_job cfg job
      then qualified_from cfg clock (S i) rest
      else
        let scored := set_score job (ScoringEngine.score_job cfg (clock i) job) in
        if PrimFloat.ltb (score scored) (min_score (scoring cfg))
        then qualified_from cfg clock (S i) rest
        else scored :: qualified_from cfg clock (S i) rest
  end.

(** An outcome that ends the loop at once: a response whose status is
    accepted, or an exception the [except] clause does not catch. *)
Definition final_outcome (r : Result Response) : Prop :=
  match r with
  | Return _ => True
  | Raise e => Http.caught e = false
  end.

(** The sixteen characters of a hex digest. *)
Definition is_hex (c : ascii) : bool :=
  PyStr.contains "0123456789abcdef" (String c EmptyString).

(** Every character of [s] passes the test [p]. *)
Fixpoint all_chars (p : ascii -> bool) (s : string) : bool :=
  match s with
  | EmptyString => true
  | String c s' => p c && all_chars p s'
  end.




(** The jobs of [later] never beat the job [a]. *)
Definition holds_against (a : Job) (later : list Job) : Prop :=
  Forall (fun b => PrimFloat.ltb (score a) (score b) = false) later.

(** No job is listed after a job it beats. *)
Fixpoint ranked (l : list Job) : Prop :=
  match l with
  | [] => True
  | a :: rest => holds_against a rest /\ ranked rest
  end.


End Vocabulary.

(* ===================================================================== *)
(** ** Sample inputs *)
(* ===================================================================== *)

(** A configuration that fits the worked example. *)
Definition example_config : Config :=
  mkConfig (mkScoring 25 25 25 25 50 20)
           (mkFilters ["solidity"; "engineer"]%string ["rust"]%string [] [] []
                      (mkLocationConfig ["San Francisco"]%string true [])).

(** The job of the worked example, posted two days before [now]. *)
Definition example_job (now : datetime) : Job :=
  mkJob "Senior Solidity Engineer" "Acme" "Remote" "https://acme.example/jobs/1"
        EmptyString (Some (now - 2 * day)) None None None "html_web3_career"
        0%float (Some "1"%string).

(** The veto of the specification: "San Francisco" is excluded and
    preferred at once. *)
Definition veto_config : Config :=
  mkConfig (mkScoring 35 30 15 20 50 20)
           (mkFilters [] ["rust"; "go"; "Solidity"]%string ["intern"]%string [] []
                      (mkLocationConfig ["San Francisco"]%string false
                                        ["san francisco"; "Remote"]%string)).

(** An exclude keyword written with a capital, and an allowed level
    written in lower case. *)
Definition capital_config : Config :=
  mkConfig (mkScoring 35 30 15 20 50 20)
           (mkFilters [] [] ["Intern"]%string [] []
                      (mkLocationConfig [] false [])).

Definition level_config : Config :=
  mkConfig (mkScoring 35 30 15 20 50 20)
           (mkFilters [] [] [] [] ["senior"]%string
                      (mkLocationConfig [] false [])).

(** A job with the word of the exclude keyword in its title. *)
Definition intern_job : Job :=
  mkJob "Marketing Intern" "Acme" "Remote" "https://acme.example/2" "Summer role"
        None None None None "html_web3_career" 0%float (Some "2"%string).

(** A job that declares its level with a capital. *)
Definition senior_job : Job :=
  mkJob "Protocol Engineer" "Acme" "Remote" "https://acme.example/3" "Rust"
        None (Some "Senior"%string) None None "lever_solana" 0%float
        (Some "3"%string).

(** A posting as [LeverScraper] builds it, with the identifier of the
    source. *)
Definition lever_job : Job :=
  mkJob "Protocol Engineer" "Full-time" "Remote" "https://jobs.lever.co/solana/a1b2c3"
        "Build validators" None None (Some "Full-time"%string) None "lever_solana"
        0%float (Some "a1b2c3"%string).

(** A posting as [HTMLScraper] builds it, without identifier. *)
Definition html_job (posted : datetime) : Job :=
  mkJob "Engineer" "Acme" "Remote" "https://x.io/1" EmptyString (Some posted)
        None None None "html_web3_career" 0%float None.

(** An element of a listing page with its four sub-elements. *)
Definition sample_element : Element :=
  mkElement (Some " Solidity  Engineer "%string) (Some "Acme"%string)
            (Some "Remote"%string) (Some (Some "/jobs/42"%string)).

(** A stand-in for [httpx.URL(url).host] in the examples, which request
    one URL only: the URL itself is the key of the rate limiter. *)
Definition whole_url (url : string) : string := url.

(** A client as [_init_http_client] builds it by default, with a chosen
    number of retries. *)
Definition client (retries : Z) : HttpClient :=
  mkHttpClient 2 30 retries ∅ "Mozilla/5.0".

(** A network where every request times out. *)
Definition dead_network : World :=
  mkWorld (fun _ => 0%float) (fun _ => inl (RequestError "timed out")).

(** A network that answers 503 every time. *)
Definition unavailable : World :=
  mkWorld (fun _ => 0%float) (fun _ => inr (mkResponse 503 "busy")).

(** The page of a job board. *)
Definition board : string := "https://web3.career/jobs".

(** A table that knows the Lever posting, flagged new. *)
Definition one_row : gmap string Row :=
  {[ "a1b2c3"%string := mkRow lever_job 10 10 true ]}.

(** A network that resets the first connection and answers the second
    request. *)
Definition flaky_network : World :=
  mkWorld (fun _ => 0%float)
          (fun k => match k with
                    | O => inl (RequestError "reset")
                    | _ => inr (mkResponse 200 "[]")
                    end).

(** A client that requested the board at time 10, and a network that
    answers at time 10.5. *)
Definition seen_client : HttpClient :=
  mkHttpClient 2 30 2 {[ board := 10%float ]} "Mozilla/5.0".

Definition prompt_network : World :=
  mkWorld (fun _ => 10.5%float) (fun _ => inr (mkResponse 200 "[]")).

(** A configuration whose list of exclude keywords holds an empty entry. *)
Definition blank_config : Config :=
  mkConfig (mkScoring 35 30 15 20 50 20)
           (mkFilters [] [] [EmptyString] [] [] (mkLocationConfig [] false [])).

(** Three scored jobs, the last two with the same score. *)
Definition scored_jobs : list Job :=
  [set_score intern_job 40; set_score lever_job 70; set_score senior_job 70].

(* ===================================================================== *)
(** * Properties *)
(* ===================================================================== *)

(** ** The substring test *)

Section StringFacts.

Import PyStr.

Lemma append_nil (b : string) : EmptyString +:+ b = b.
Proof. reflexivity. Qed.

Lemma append_cons (x : ascii) (a b : string) :
  String x a +:+ b = String x (a +:+ b).
Proof. reflexivity. Qed.

Lemma append_assoc (a b c : string) : (a +:+ b) +:+ c = a +:+ (b +:+ c).
Proof.
  induction a as [|x a IH]; [reflexivity|].
  rewrite !append_cons. now rewrite IH.
Qed.

Lemma startswith_spec (hay needle : string) :
  startswith hay needle = true <-> exists post, hay = needle +:+ post.
Proof.
  revert hay. induction needle as [|a needle IH]; intros hay.
  - split; [intros _; now exists hay | now destruct hay].
  - destruct hay as [|b hay]; cbn [startswith].
    + split; [discriminate | intros [post H]; discriminate].
    + destruct (Ascii.eqb_spec a b) as [->|Hne].
      * rewrite IH. split; intros [post H]; exists post.
        -- rewrite append_cons. now rewrite H.
        -- rewrite append_cons in H. now injection H.
      * split; [discriminate |].
        intros [post H]. rewrite append_cons in H. injection H. congruence.
Qed.

(** [needle in hay] holds exactly when [hay] is [needle] between a prefix
    and a suffix. *)
Lemma contains_spec (hay needle : string) :
  contains hay needle = true <->
  exists pre post, hay = pre +:+ needle +:+ post.
Proof.
  induction hay as [|c hay IH].
  - cbn [contains]. rewrite orb_false_r, startswith_spec. split.
    + intros [post H]. now exists EmptyString, post.
    + intros [pre [post H]]. destruct pre as [|x pre].
      * now exists post.
      * rewrite append_cons in H. discriminate.
  - cbn [contains]. rewrite orb_true_iff, startswith_spec, IH. split.
    + intros [[post H] | [pre [post H]]].
      * now exists EmptyString, post.
      * exists (String c pre), post. rewrite append_cons. now rewrite H.
    + intros [pre [post H]]. destruct pre as [|x pre].
      * left. now exists post.
      * right. exists pre, post. rewrite append_cons in H. now injection H.
Qed.

Lemma contains_empty (hay : string) : contains hay EmptyString = true.
Proof. destruct hay; reflexivity. Qed.

Lemma truthy_false (s : string) : truthy s = false <-> s = EmptyString.
Proof. destruct s; simpl; split; congruence. Qed.

Lemma truthy_true (s : string) : truthy s = true <-> s <> EmptyString.
Proof. destruct s; simpl; split; congruence. Qed.

Lemma mem_spec (x : string) (xs : list string) :
  mem x xs = true <-> In x xs.
Proof.
  unfold mem. rewrite existsb_exists. split.
  - intros [y [Hin Heq]]. apply String.eqb_eq in Heq. now subst.
  - intros Hin. exists x. split; [assumption | apply String.eqb_refl].
Qed.

End StringFacts.

(** ** Comparisons of floats *)

Section FloatFacts.

Lemma ltb_leb (a b : float) : PrimFloat.ltb a b = true -> PrimFloat.leb a b = true.
Proof.
  rewrite ltb_spec, leb_spec. unfold SFltb, SFleb.
  destruct (SFcompare (Prim2SF a) (Prim2SF b)) as [[| |]|]; congruence.
Qed.

(** [min(hi, max(lo, x))] lies between [lo] and [hi], whatever [x] is
    (a NaN included), as soon as [lo <= hi]. *)
Lemma clamp_bounds (lo hi x : float) :
  PrimFloat.leb lo lo = true -> PrimFloat.leb hi hi = true ->
  PrimFloat.leb lo hi = true ->
  PyFloat.le lo (PyFloat.min hi (PyFloat.max lo x)) /\
  PyFloat.le (PyFloat.min hi (PyFloat.max lo x)) hi.
Proof.
  intros Hlo Hhi Hlh. unfold PyFloat.le, PyFloat.min, PyFloat.max.
  destruct (PrimFloat.ltb lo x) eqn:E1.
  - destruct (PrimFloat.ltb x hi) eqn:E2.
    + split; now apply ltb_leb.
    + now split.
  - destruct (PrimFloat.ltb lo hi) eqn:E2.
    + split; [assumption | now apply ltb_leb].
    + now split.
Qed.

End FloatFacts.

Section ScoringFacts.

Import PyStr ScoringEngine.

Lemma existsb_occurs_ci (needles : list string) (hay : string) :
  existsb (fun needle => contains (lower hay) (lower needle)) needles = true
  <-> any_occurs_ci needles hay.
Proof.
  rewrite existsb_exists. unfold any_occurs_ci, occurs_ci, occurs_in.
  split; intros [needle [Hin H]]; exists needle; split; try assumption;
    now apply contains_spec.
Qed.




Lemma present_le (keywords : list string) (hay : string) :
  (present keywords hay <= List.length keywords)%nat.
Proof. unfold present. apply List.filter_length_le. Qed.


End ScoringFacts.

(** ** The scoring engine *)

Section ScoringClaims.

Import PyStr ScoringEngine.

(** C2. For every job, every configuration (the four weights are arbitrary
    floats: they need not sum to 100, and may be negative, infinite or
    NaN) and every clock reading, [score_job] returns a float [s] with
    [0.0 <= s <= 100.0]. *)
Theorem score_job_bounds (cfg : Config) (now : datetime) (job : Job) :
  PyFloat.le 0 (score_job cfg now job) /\ PyFloat.le (score_job cfg now job) 100.
Proof. unfold score_job. apply clamp_bounds; reflexivity. Qed.

(** C9. Whatever the configuration, an empty title gets the title
    sub-score [0.0]. In particular when no title keyword is configured the
    empty title still gets 0, while every non-empty title gets the neutral
    50: the test of the title comes before the test of the number of
    keywords. *)
Theorem empty_title_scores_zero (cfg : Config) :
  _score_title_match cfg EmptyString = 0%float /\
  (title_keywords (filters cfg) = [] ->
   _score_title_match cfg EmptyString = 0%float /\
   forall t, t <> EmptyString -> _score_title_match cfg t = 50%float).
Proof.
  split; [reflexivity|]. intros Hk. split; [reflexivity|].
  intros t Ht. unfold _score_title_match. rewrite Hk.
  destruct t; [congruence | reflexivity].
Qed.



End ScoringClaims.

Section ScoringExample.

Import PyStr ScoringEngine.

Lemma recency_of_age (now : datetime) (job : Job) (age : Z) :
  age_days now job = Some age ->
  _score_recency now (posted_date job) =
    if age <=? 1 then 100%float
    else if age <=? 7 then 80%float
    else if age <=? 30 then 60%float
    else if age <=? 90 then 30%float
    else 10%float.
Proof.
  unfold age_days, _score_recency.
  destruct (posted_date job) as [d|]; [|discriminate].
  intros H. injection H as <-. reflexivity.
Qed.

Lemma location_not_excluded (cfg : Config) (loc : string) :
  ~ any_occurs_ci (excluded_locations (location_config (filters cfg))) loc ->
  existsb (fun excluded => contains (lower loc) (lower excluded))
          (excluded_locations (location_config (filters cfg))) = false.
Proof.
  intros H. apply not_true_is_false. intros E. apply H.
  now apply existsb_occurs_ci.
Qed.

(** C7. The worked example: title "Senior Solidity Engineer" against the
    title keywords "solidity" and "engineer", an empty description, the
    location "Remote" with [remote_only] set (and no excluded location
    occurring in it), a posting whose age is 2 days when it is scored, and
    the four weights equal to 25. The four sub-scores are 100, 0, 100 and
    80, and [score_job] returns exactly [70.0]. *)
Theorem worked_example (cfg : Config) (now : datetime) (job : Job) :
  title job = "Senior Solidity Engineer"%string ->
  title_keywords (filters cfg) = ["solidity"; "engineer"]%string ->
  description job = EmptyString ->
  location job = "Remote"%string ->
  remote_only (location_config (filters cfg)) = true ->
  ~ any_occurs_ci (excluded_locations (location_config (filters cfg))) "Remote" ->
  age_days now job = Some 2 ->
  title_match_weight (scoring cfg) = 25%float ->
  keyword_match_weight (scoring cfg) = 25%float ->
  location_match_weight (scoring cfg) = 25%float ->
  recency_weight (scoring cfg) = 25%float ->
  _score_title_match cfg (title job) = 100%float /\
  _score_keyword_match cfg (description job) = 0%float /\
  _score_location_match cfg (location job) = 100%float /\
  _score_recency now (posted_date job) = 80%float /\
  score_job cfg now job = 70%float.
Proof.
  intros Ht Hk Hd Hl Hr Hx Ha W1 W2 W3 W4.
  assert (S1 : _score_title_match cfg (title job) = 100%float).
  { unfold _score_title_match. rewrite Ht, Hk. vm_compute. reflexivity. }
  assert (S2 : _score_keyword_match cfg (description job) = 0%float).
  { rewrite Hd. reflexivity. }
  assert (S3 : _score_location_match cfg (location job) = 100%float).
  { unfold _score_location_match. rewrite Hl.
    rewrite (location_not_excluded cfg "Remote" Hx), Hr. reflexivity. }
  assert (S4 : _score_recency now (posted_date job) = 80%float).
  { rewrite (recency_of_age now job 2 Ha). reflexivity. }
  repeat split; try assumption.
  unfold score_job. rewrite S1, S2, S3, S4, W1, W2, W3, W4.
  vm_compute. reflexivity.
Qed.

Lemma worked_example_witness :
  score_job example_config (100 * day) (example_job (100 * day)) = 70%float.
Proof.
  apply (worked_example example_config (100 * day) (example_job (100 * day)));
    try reflexivity.
  intros H. apply existsb_occurs_ci in H. vm_compute in H. discriminate.
Defined.

End ScoringExample.

Section ExclusionClaims.

Import PyStr ScoringEngine.

Lemma existsb_excluded (cfg : Config) (job : Job) :
  existsb (fun k => contains (combined_text job) (lower k))
          (exclude_keywords (filters cfg)) = true
  <-> has_excluded_keyword cfg job.
Proof.
  rewrite existsb_exists. unfold has_excluded_keyword, occurs_in, combined_text.
  split; intros [k [Hin H]]; exists k; split; try assumption;
    now apply contains_spec.
Qed.

Lemma existsb_required (cfg : Config) (job : Job) :
  existsb (fun k => negb (contains (combined_text job) (lower k)))
          (required_keywords (filters cfg)) = true
  <-> lacks_required_keyword cfg job.
Proof.
  rewrite existsb_exists. unfold lacks_required_keyword, occurs_in, combined_text.
  split; intros [k [Hin H]]; exists k; split; try assumption.
  - intros Hocc. apply contains_spec in Hocc. rewrite Hocc in H. discriminate.
  - apply negb_true_iff, not_true_is_false. intros Hc. apply H.
    now apply contains_spec.
Qed.

Lemma level_test (cfg : Config) (job : Job) :
  match experience_level job with
  | Some level =>
      if negb (Nat.eqb (List.length (experience_levels (filters cfg))) 0) && truthy level
      then if negb (mem (lower level) (List.map lower (experience_levels (filters cfg))))
           then true else false
      else false
  | None => false
  end = true
  <-> level_not_allowed cfg job.
Proof.
  unfold level_not_allowed.
  destruct (experience_level job) as [level|].
  - destruct (experience_levels (filters cfg)) as [|l ls] eqn:El.
    + cbn. split; [discriminate | intros [H _]; congruence].
    + change (negb (Nat.eqb (List.length (l :: ls)) 0)) with true. cbn [andb].
      destruct (truthy level) eqn:Et.
      * apply truthy_true in Et.
        destruct (mem (lower level) (List.map lower (l :: ls))) eqn:Em; cbn [negb].
        -- apply mem_spec in Em. split; [discriminate|].
           intros [_ [lv [H1 [_ H3]]]]. injection H1 as H1. subst lv. contradiction.
        -- split; [|reflexivity]. intros _. split; [discriminate|].
           exists level. repeat split; try assumption.
           intros Hin. apply mem_spec in Hin. congruence.
      * apply truthy_false in Et. split; [discriminate|].
        intros [_ [lv [H1 [H2 _]]]]. injection H1 as H1. subst lv. contradiction.
  - split; [discriminate | intros [_ [lv [H _]]]; discriminate].
Qed.

(** C4, as the code has it. [should_exclude_job] answers [True] exactly
    when, over the lower case of the text [title + " " + description]
    (title and description joined by one space): some exclude keyword, put
    in lower case, occurs in it; or some required keyword, put in lower
    case, does not occur in it; or the list of allowed experience levels is
    non-empty and the job declares a level, a non-empty string, whose lower
    case is not the lower case of an allowed level. Each of the three
    conditions is enough alone. *)
Theorem should_exclude_iff (cfg : Config) (job : Job) :
  should_exclude_job cfg job = true <->
  (exists k, In k (exclude_keywords (filters cfg)) /\
             occurs_in (lower k) (lower (title job +:+ " " +:+ description job))) \/
  (exists k, In k (required_keywords (filters cfg)) /\
             ~ occurs_in (lower k) (lower (title job +:+ " " +:+ description job))) \/
  (experience_levels (filters cfg) <> [] /\
   exists level, experience_level job = Some level /\ level <> EmptyString /\
                 ~ In (lower level) (List.map lower (experience_levels (filters cfg)))).
Proof.
  change (should_exclude_job cfg job = true <->
          has_excluded_keyword cfg job \/ lacks_required_keyword cfg job \/
          level_not_allowed cfg job).
  unfold should_exclude_job.
  rewrite <- existsb_excluded, <- existsb_required, <- level_test.
  destruct (existsb _ (exclude_keywords (filters cfg))); [tauto|].
  destruct (existsb _ (required_keywords (filters cfg))); [tauto|].
  split; [tauto|]. intros [H | [H | H]]; [discriminate | discriminate | exact H].
Qed.

(** C4, as the claim words it, fails in both directions. The exclude
    keyword "Intern" excludes the job titled "Marketing Intern", although
    "Intern" is no substring of the lower-cased text, with or without the
    space between title and description. And the job that declares the
    level "Senior" is kept when "senior" is allowed, although "Senior" is
    not in the list. *)
Lemma exclusion_lowers_keywords_and_levels :
  (should_exclude_job capital_config intern_job = true /\
   ~ stated_exclusion (lower (title intern_job +:+ " " +:+ description intern_job))
                      capital_config intern_job /\
   ~ stated_exclusion (lower (title intern_job +:+ description intern_job))
                      capital_config intern_job) /\
  (should_exclude_job level_config senior_job = false /\
   stated_exclusion (lower (title senior_job +:+ " " +:+ description senior_job))
                    level_config senior_job).
Proof.
  split; [split; [vm_compute; reflexivity | split]|split; [vm_compute; reflexivity|]].
  - intros [[k [Hin H]] | [[k [[] _]] | [Hne _]]]; [|now apply Hne].
    destruct Hin as [<- | []]. apply contains_spec in H.
    vm_compute in H. discriminate.
  - intros [[k [Hin H]] | [[k [[] _]] | [Hne _]]]; [|now apply Hne].
    destruct Hin as [<- | []]. apply contains_spec in H.
    vm_compute in H. discriminate.
  - right. right. split; [discriminate|].
    exists "Senior"%string. split; [reflexivity|].
    intros [H | []]. discriminate.
Qed.

End ExclusionClaims.

(** ** The identity of a job *)

Section IdentityClaims.

Lemma le_bytes_length (k : nat) (n : Z) : List.length (MD5.le_bytes k n) = k.
Proof. revert n. induction k as [|k IH]; intros n; simpl; [reflexivity | now rewrite IH]. Qed.

Lemma hex_of_bytes_length (bs : list Z) :
  String.length (MD5.hex_of_bytes bs) = (2 * List.length bs)%nat.
Proof. induction bs as [|b bs IH]; simpl; [reflexivity | rewrite IH; lia]. Qed.

(** A hex digest always has 32 characters, so it is never falsy. *)
Lemma hexdigest_length (s : string) : String.length (MD5.hexdigest s) = 32%nat.
Proof.
  unfold MD5.hexdigest, MD5.digest. rewrite hex_of_bytes_length.
  rewrite !List.length_app, !le_bytes_length. reflexivity.
Qed.

Lemma post_init_absent (j : Job) :
  job_id j = None \/ job_id j = Some EmptyString ->
  job_id (post_init j) = Some (MD5.hexdigest (fingerprint_content j)).
Proof. unfold post_init. intros [H | H]; rewrite H; reflexivity. Qed.

(** C1, as the code has it. When the source gives a non-empty identifier,
    the identity of the job is that identifier itself, without the source
    name in front. Otherwise it is the MD5 hex digest of
    [title + "_" + company + "_" + url]; two jobs built without identifier
    from the same title, company and url get the same identity, whatever
    their other fields are. *)
Theorem identity_of_job (j : Job) :
  (forall id, job_id j = Some id -> id <> EmptyString ->
              job_id (post_init j) = Some id) /\
  (job_id j = None \/ job_id j = Some EmptyString ->
   job_id (post_init j)
   = Some (MD5.hexdigest (title j +:+ "_" +:+ company j +:+ "_" +:+ url j))) /\
  (forall j', (job_id j = None \/ job_id j = Some EmptyString) ->
              (job_id j' = None \/ job_id j' = Some EmptyString) ->
              title j' = title j -> company j' = company j -> url j' = url j ->
              job_id (post_init j') = job_id (post_init j)).
Proof.
  split; [|split].
  - intros id H Hne. unfold post_init. rewrite H.
    destruct id; [congruence | assumption].
  - apply post_init_absent.
  - intros j' H H' Ht Hc Hu.
    rewrite (post_init_absent j H), (post_init_absent j' H').
    unfold fingerprint_content. now rewrite Ht, Hc, Hu.
Qed.

Lemma identity_of_job_witness :
  job_id (post_init lever_job) = Some "a1b2c3"%string /\
  job_id (post_init (html_job 0))
  = Some (MD5.hexdigest "Engineer_Acme_https://x.io/1") /\
  job_id (post_init (html_job 86400)) = job_id (post_init (html_job 0)).
Proof.
  split; [|split].
  - apply (proj1 (identity_of_job lever_job)); [reflexivity | discriminate].
  - apply (proj1 (proj2 (identity_of_job (html_job 0)))). now left.
  - apply (proj2 (proj2 (identity_of_job (html_job 0)))); try reflexivity; now left.
Defined.

(** C1, as the claim words it, fails on a posting that comes with an
    identifier: its identity is the identifier alone, not
    [source + ":" + native_id]. *)
Lemma identity_has_no_source_prefix :
  job_id (post_init lever_job) = Some "a1b2c3"%string /\
  job_id (post_init lever_job) <> Some (source lever_job +:+ ":" +:+ "a1b2c3").
Proof. split; [reflexivity | vm_compute; discriminate]. Qed.

(** The digest of the example, as [hashlib.md5] prints it. *)
Example html_job_identity :
  job_id (post_init (html_job 0)) = Some "dcdf6047b86ef9e14951774e9fa2b2c5"%string.
Proof. vm_compute. reflexivity. Qed.

(** The MD5 test suite of RFC 1321, first entries, and a message of more
    than one block. *)
Example md5_empty : MD5.hexdigest "" = "d41d8cd98f00b204e9800998ecf8427e"%string.
Proof. vm_compute. reflexivity. Qed.

Example md5_abc : MD5.hexdigest "abc" = "900150983cd24fb0d6963f7d28e17f72"%string.
Proof. vm_compute. reflexivity. Qed.

Example md5_two_blocks :
  MD5.hexdigest "aaaaaaaaaaaaaaaaaaaaaaaaaaaaaaaaaaaaaaaaaaaaaaaaaaaaaaaa"
  = "3b0c8ac703f828b04c6c197006d17218"%string.
Proof. vm_compute. reflexivity. Qed.

End IdentityClaims.

(** ** Postings of the HTML scraper *)

Section HtmlClaims.

Import ScoringEngine HTMLScraper.

Lemma post_init_posted_date (j : Job) : posted_date (post_init j) = posted_date j.
Proof. unfold post_init. now destruct (PyStr.opt_truthy (job_id j)). Qed.

Lemma job_of_element_posted_date (site_name base_url : string) (now : datetime)
    (element : Element) (job : Job) :
  job_of_element site_name base_url now element = Some job ->
  posted_date job = Some now.
Proof.
  unfold job_of_element.
  destruct (title_elem element); [|discriminate].
  destruct (company_elem element); [|discriminate].
  destruct (match url_elem element with Some a => a | None => Some EmptyString end);
    [|discriminate].
  intros H. injection H as <-. now rewrite post_init_posted_date.
Qed.

(** What a job owes to the element it is built from. *)
Lemma job_of_element_fields (site_name base_url : string) (now : datetime)
    (element : Element) (job : Job) :
  job_of_element site_name base_url now element = Some job ->
  exists title_text company_text,
    title_elem element = Some title_text /\
    company_elem element = Some company_text /\
    title job = BaseScraper._clean_text title_text /\
    company job = BaseScraper._clean_text company_text.
Proof.
  unfold job_of_element.
  destruct (title_elem element) as [t|]; [|discriminate].
  destruct (company_elem element) as [c|]; [|discriminate].
  destruct (match url_elem element with Some a => a | None => Some EmptyString end);
    [|discriminate].
  intros H. injection H as <-. exists t, c. unfold post_init.
  now destruct (PyStr.opt_truthy _).
Qed.

(** Every job of the loop comes from the element at some position [k],
    and is built at the clock reading of that position. *)
Lemma jobs_from_element (site_name base_url : string) (clock : nat -> datetime)
    (elements : list Element) (i : nat) (job : Job) :
  In job (jobs_from site_name base_url clock i elements) ->
  exists k element,
    elements !! k = Some element /\
    job_of_element site_name base_url (clock (i + k)%nat) element = Some job.
Proof.
  revert i. induction elements as [|element rest IH]; intros i; cbn [jobs_from].
  - contradiction.
  - assert (Hrest : In job (jobs_from site_name base_url clock (S i) rest) ->
              exists k e, (element :: rest) !! k = Some e /\
                job_of_element site_name base_url (clock (i + k)%nat) e = Some job).
    { intros Hin. destruct (IH _ Hin) as [k [e [Hk He]]].
      exists (S k), e. split; [exact Hk|].
      now replace (i + S k)%nat with (S i + k)%nat by lia. }
    destruct (job_of_element site_name base_url (clock i) element) as [j|] eqn:E.
    + intros [<- | Hin]; [|now apply Hrest].
      exists 0%nat, element. split; [reflexivity|]. now rewrite Nat.add_0_r.
    + exact Hrest.
Qed.

Lemma recency_recent (now posted : datetime) :
  now - posted < 2 * day -> _score_recency now (Some posted) = 100%float.
Proof.
  intros H. unfold _score_recency, timedelta_days.
  assert (Hd : (now - posted) / day <= 1).
  { assert ((now - posted) / day < 2); [|lia].
    apply Z.div_lt_upper_bound; [reflexivity | lia]. }
  apply Z.leb_le in Hd. now rewrite Hd.
Qed.

(** C10, as the code has it. Every job [_scrape_html_site] returns is
    built from one of the first 50 elements of the page, the element at
    some position [k] whose title and company it carries, and its posted
    date is the reading of the clock taken while that element was handled,
    [clock k]. Its recency sub-score (which reads no configuration) is 100
    whenever it is scored less than two days after that reading. *)
Theorem html_job_recency (site_name base_url : string) (clock : nat -> datetime)
    (job_elements : list Element) (job : Job) :
  In job (_scrape_html_site site_name base_url clock job_elements) ->
  exists k element title_text company_text,
    (k < 50)%nat /\ job_elements !! k = Some element /\
    title_elem element = Some title_text /\
    company_elem element = Some company_text /\
    title job = BaseScraper._clean_text title_text /\
    company job = BaseScraper._clean_text company_text /\
    posted_date job = Some (clock k) /\
    forall now, now - clock k < 2 * day ->
                _score_recency now (posted_date job) = 100%float.
Proof.
  unfold _scrape_html_site. intros Hin.
  destruct (jobs_from_element _ _ _ _ _ _ Hin) as [k [element [Hk He]]].
  apply lookup_take_Some in Hk. destruct Hk as [Hk Hlt].
  destruct (job_of_element_fields _ _ _ _ _ He) as [t [c [Ht [Hc [Htj Hcj]]]]].
  pose proof (job_of_element_posted_date _ _ _ _ _ He) as Hp.
  exists k, element, t, c. repeat split; try assumption.
  intros now Hnow. rewrite Hp. now apply recency_recent.
Qed.

(** Two elements of a page, handled one after the other. *)
Definition two_elements : list Element :=
  [mkElement (Some "Engineer"%string) (Some "Acme"%string) None
             (Some (Some "/1"%string));
   mkElement (Some "Designer"%string) (Some "Acme"%string) None
             (Some (Some "/2"%string))].

Lemma html_job_recency_witness :
  exists k element title_text company_text,
    (k < 50)%nat /\ two_elements !! k = Some element /\
    title_elem element = Some title_text /\
    company_elem element = Some company_text /\
    "Designer"%string = BaseScraper._clean_text title_text /\
    "Acme"%string = BaseScraper._clean_text company_text /\
    Some 1001 = Some (1000 + Z.of_nat k) /\
    forall now, now - (1000 + Z.of_nat k) < 2 * day ->
                _score_recency now (Some 1001) = 100%float.
Proof.
  apply (html_job_recency "web3_career" "https://x.io"
           (fun k => 1000 + Z.of_nat k) two_elements
           (post_init (mkJob "Designer" "Acme" "Remote" "https://x.io/2" EmptyString
                             (Some 1001) None None None "html_web3_career"
                             0%float None))).
  vm_compute. right. left. reflexivity.
Defined.

(** The second element is stamped with the second reading of the clock. *)
Example second_element_second_reading :
  List.map (fun job => (title job, posted_date job))
           (_scrape_html_site "web3_career" "https://x.io"
                              (fun k => 1000 + Z.of_nat k) two_elements)
  = [("Engineer"%string, Some 1000); ("Designer"%string, Some 1001)].
Proof. vm_compute. reflexivity. Qed.

(** C10, as the claim words it, fails when scoring comes two days or more
    after scraping: the job scraped at time [0] and scored at time
    [2 * day] gets the recency sub-score 80. *)
Lemma html_job_scored_late :
  List.map (fun job => (posted_date job, _score_recency (2 * day) (posted_date job)))
           (_scrape_html_site "web3_career" "https://web3.career" (fun _ => 0)
                              [sample_element])
  = [(Some 0, 80%float)].
Proof. vm_compute. reflexivity. Qed.

(** [_clean_text] on a title as a page gives it. *)
Example clean_text_example :
  BaseScraper._clean_text "  Senior   Dev &amp; Ops &lt;Lead&gt; "
  = "Senior Dev & Ops <Lead>"%string.
Proof. vm_compute. reflexivity. Qed.

(** The entities are decoded one after the other, so ["&amp;lt;"] ends as
    ["<"]. *)
Example clean_text_nested : BaseScraper._clean_text "a &amp;lt; b" = "a < b"%string.
Proof. vm_compute. reflexivity. Qed.

(** The job built from the sample element: cleaned title, link resolved
    against the base URL, identity computed by [__post_init__]. *)
Example sample_element_job :
  List.map (fun job => (title job, url job, source job))
           (_scrape_html_site "web3_career" "https://web3.career" (fun _ => 0)
                              [sample_element])
  = [("Solidity Engineer", "https://web3.career/jobs/42", "html_web3_career")%string].
Proof. vm_compute. reflexivity. Qed.

(** An element without title is skipped, and so is a link without [href]. *)
Example malformed_elements_skipped :
  _scrape_html_site "web3_career" "https://web3.career" (fun _ => 0)
    [mkElement None (Some "Acme"%string) None None;
     mkElement (Some "Dev"%string) (Some "Acme"%string) None (Some None)]
  = [].
Proof. vm_compute. reflexivity. Qed.

End HtmlClaims.

(** ** Preview mode *)

Section DryRunClaims.

Import JobHunter.

(** C8. For every list of scraped jobs, configuration, clock and database:
    a dry run issues no write statement and hands back the database it was
    given, and it builds the same list of qualified jobs (each with its
    score), the same list of new jobs and the same three counts as a real
    run started from the same database. *)
Theorem dry_run_read_only (cfg : Config) (clock stamp : nat -> datetime)
    (all_jobs : list Job) (db : gmap string Row) :
  let dry := run cfg clock stamp true all_jobs db in
  let real := run cfg clock stamp false all_jobs db in
  database dry = db /\ writes dry = [] /\
  qualified_jobs dry = qualified_jobs real /\
  List.map score (qualified_jobs dry) = List.map score (qualified_jobs real) /\
  new_jobs dry = new_jobs real /\
  counts dry = counts real.
Proof.
  cbv zeta. unfold run, counts. cbn [negb andb].
  destruct (fold_left (save_step stamp _) _ _) as [[n db1] log1].
  destruct (negb _); cbn; repeat split; reflexivity.
Qed.

(** A real run over the same inputs does write: the comparison above is
    not between two read-only runs. *)
Example real_run_writes :
  writes (run example_config (fun _ => 100 * day) (fun _ => 100 * day) false
              [example_job (100 * day)] ∅)
  = [InsertOrReplace "1"; MarkAllSeen].
Proof. vm_compute. reflexivity. Qed.

(** After it, the job is in the table, no longer flagged as new. *)
Example real_run_marks_seen :
  is_new <$> (database (run example_config (fun _ => 100 * day) (fun _ => 100 * day)
                            false [example_job (100 * day)] ∅) !! "1"%string)
  = Some false.
Proof. vm_compute. reflexivity. Qed.

End DryRunClaims.

(** ** Retries of [HttpClient.get] *)

Section RetryClaims.

Import Http.

Variable url_host : string -> string.

(** [float(2 ** attempt)] is finite up to attempt 1023. *)
Lemma pow2_finite (attempt : nat) :
  (attempt < 1024)%nat ->
  PyFloat.of_int (2 ^ Z.of_nat attempt) = Some (PyFloat.of_Z (2 ^ Z.of_nat attempt)).
Proof.
  intros H.
  assert (Hall : forallb (fun a => negb (PrimFloat.is_infinity
                                           (PyFloat.of_Z (2 ^ Z.of_nat a))))
                         (seq 0 1024) = true) by (vm_compute; reflexivity).
  rewrite forallb_forall in Hall.
  specialize (Hall attempt). unfold PyFloat.of_int.
  destruct (PrimFloat.is_infinity _); [|reflexivity].
  discriminate Hall. apply in_seq. lia.
Qed.

Lemma backoff_delay_finite (d : float) (attempt : nat) :
  (attempt < 1024)%nat ->
  backoff_delay d attempt = Some (PyFloat.of_Z (2 ^ Z.of_nat attempt) * d)%float.
Proof. intros H. unfold backoff_delay. now rewrite pow2_finite. Qed.

Lemma requests_schedule (url : string) (d : float) (first retries : nat) :
  requests (retry_schedule url d first retries) = S retries.
Proof.
  revert first. induction retries as [|n IH]; intros first; [reflexivity|].
  unfold requests in *. cbn. now rewrite IH.
Qed.

Lemma requests_rate_limit (c : HttpClient) (w : World) (url : string) :
  requests (fst (rate_limit url_host c w url)) = 0%nat.
Proof.
  unfold rate_limit. destruct (last_request_time c !! url_host url); [|reflexivity].
  now destruct (PrimFloat.ltb _ _).
Qed.

Lemma requests_app (evs1 evs2 : list Event) :
  requests (evs1 ++ evs2) = (requests evs1 + requests evs2)%nat.
Proof. unfold requests. now rewrite List.filter_app, List.length_app. Qed.

(** One iteration of the loop whose attempt fails with a caught error. *)
Lemma get_loop_retry (w : World) (url : string) (remaining attempt reads : nat)
    (c : HttpClient) (e : Exn) :
  try_once w attempt = Raise e -> caught e = true ->
  get_loop url_host w url (S remaining) attempt reads c =
    let c1 := set_last_request_time c
                (<[url_host url := time_at w reads]> (last_request_time c)) in
    if Z.of_nat attempt =? max_retries c then (Raise e, c1, [EvRequest url])
    else
      match backoff_delay (request_delay c) attempt with
      | None => (Raise OverflowError, c1, [EvRequest url])
      | Some delay =>
          let '(r, c2, evs) :=
            get_loop url_host w url remaining (S attempt) (S reads) c1 in
          (r, c2, EvRequest url :: EvSleep delay :: evs)
      end.
Proof. intros Ht Hc. cbn [get_loop]. rewrite Ht, Hc. reflexivity. Qed.

(** The loop, entered at attempt [attempt] with [retries] retries left
    before the last attempt, all of them failing. *)
Lemma get_loop_all_fail (w : World) (url : string) (e : nat -> Exn)
    (retries attempt reads : nat) (c : HttpClient) :
  Z.of_nat (attempt + retries) = max_retries c ->
  (attempt + retries <= 1024)%nat ->
  (forall k, (k <= attempt + retries)%nat ->
             try_once w k = Raise (e k) /\ caught (e k) = true) ->
  exists c',
    get_loop url_host w url (S retries) attempt reads c
    = (Raise (e (attempt + retries)%nat), c',
       retry_schedule url (request_delay c) attempt retries).
Proof.
  revert attempt reads c.
  induction retries as [|n IH]; intros attempt reads c Hmax Hbound Hfail.
  - destruct (Hfail attempt ltac:(lia)) as [Ht Hc].
    rewrite (get_loop_retry _ _ _ _ _ _ _ Ht Hc). cbv zeta.
    replace (Z.of_nat attempt =? max_retries c) with true
      by (symmetry; apply Z.eqb_eq; lia).
    rewrite Nat.add_0_r. eexists. reflexivity.
  - destruct (Hfail attempt ltac:(lia)) as [Ht Hc].
    rewrite (get_loop_retry _ _ _ _ _ _ _ Ht Hc). cbv zeta.
    replace (Z.of_nat attempt =? max_retries c) with false
      by (symmetry; apply Z.eqb_neq; lia).
    rewrite backoff_delay_finite by lia.
    set (c1 := set_last_request_time c _).
    destruct (IH (S attempt) (S reads) c1) as [c' Heq].
    + cbn [max_retries c1 set_last_request_time]. lia.
    + lia.
    + intros k Hk. apply Hfail. lia.
    + rewrite Heq. replace (S attempt + n)%nat with (attempt + S n)%nat by lia.
      exists c'. reflexivity.
Qed.

(** C3, as the code has it. When [0 <= max_retries <= 1024] and every
    attempt fails with an error the [except] clause catches (a request
    error, or the status error of a non-2xx response), [get] sends exactly
    [max_retries + 1] requests, sleeps [2^attempt * request_delay] after
    each failed attempt but the last (attempts counted from 0), raises
    nothing in between, and finally raises the exception of the last
    attempt itself. The events start with the wait of the rate limiter,
    if any. *)
Theorem get_all_attempts_fail (c : HttpClient) (w : World) (url : string)
    (e : nat -> Exn) :
  0 <= max_retries c <= 1024 ->
  (forall k, (k <= Z.to_nat (max_retries c))%nat ->
             try_once w k = Raise (e k) /\ caught (e k) = true) ->
  exists c',
    get url_host c w url
    = (Raise (e (Z.to_nat (max_retries c))), c',
       fst (rate_limit url_host c w url)
       ++ retry_schedule url (request_delay c) 0 (Z.to_nat (max_retries c)))
    /\ requests (fst (rate_limit url_host c w url)
                 ++ retry_schedule url (request_delay c) 0 (Z.to_nat (max_retries c)))
       = Z.to_nat (max_retries c + 1).
Proof.
  intros Hrange Hfail. unfold get.
  destruct (rate_limit url_host c w url) as [waits reads] eqn:Erl.
  replace (Z.to_nat (max_retries c + 1)) with (S (Z.to_nat (max_retries c))) by lia.
  destruct (get_loop_all_fail w url e (Z.to_nat (max_retries c)) 0 reads c)
    as [c' Heq]; [lia | lia | exact Hfail |].
  rewrite Heq. exists c'. split; [reflexivity|].
  rewrite requests_app, requests_schedule.
  pose proof (requests_rate_limit c w url) as Hw. rewrite Erl in Hw.
  cbn [fst] in *. rewrite Hw. reflexivity.
Qed.

End RetryClaims.

Section RetryExamples.

Import Http.

Lemma get_all_attempts_fail_witness :
  exists c',
    get whole_url (client 2) unavailable board
    = (Raise (HTTPStatusError (mkResponse 503 "busy")), c',
       fst (rate_limit whole_url (client 2) unavailable board)
       ++ retry_schedule board 2 0 2)
    /\ requests (fst (rate_limit whole_url (client 2) unavailable board)
                 ++ retry_schedule board 2 0 2) = 3%nat.
Proof.
  apply (get_all_attempts_fail whole_url (client 2) unavailable board
           (fun _ => HTTPStatusError (mkResponse 503 "busy"))).
  - cbn. lia.
  - intros k _. split; reflexivity.
Defined.

(** The events of the call above, spelled out. *)
Example three_requests_two_sleeps :
  snd (get whole_url (client 2) unavailable board)
  = [EvRequest board; EvSleep 2; EvRequest board; EvSleep 4; EvRequest board].
Proof. vm_compute. reflexivity. Qed.

(** C3, as the claim words it, fails on the error that comes out: [get]
    re-raises the exception of the last attempt as it is. The same value
    comes out of a call that made two attempts and of a call that made one,
    so it is no wrapper that records the number of attempts. *)
Lemma get_raises_bare_cause :
  fst (fst (get whole_url (client 1) dead_network board))
  = Raise (RequestError "timed out") /\
  fst (fst (get whole_url (client 0) dead_network board))
  = Raise (RequestError "timed out") /\
  requests (snd (get whole_url (client 1) dead_network board)) = 2%nat /\
  requests (snd (get whole_url (client 0) dead_network board)) = 1%nat.
Proof. vm_compute. repeat split; reflexivity. Qed.

(** The [RuntimeError] after the loop is reached only when the loop has
    no iteration. *)
Example no_attempt_at_all :
  fst (fst (get whole_url (client (-1)) dead_network board))
  = Raise (RuntimeError "Failed to fetch https://web3.career/jobs after 0 attempts") /\
  snd (get whole_url (client (-1)) dead_network board) = [].
Proof. vm_compute. split; reflexivity. Qed.

(** A success at the second attempt stops the retries. *)
Example second_attempt_succeeds :
  let w := mkWorld (fun _ => 0%float)
             (fun k => match k with
                       | O => inl (RequestError "reset")
                       | _ => inr (mkResponse 200 "[]")
                       end) in
  fst (fst (get whole_url (client 2) w board)) = Return (mkResponse 200 "[]") /\
  snd (get whole_url (client 2) w board)
  = [EvRequest board; EvSleep 2; EvRequest board].
Proof. vm_compute. split; reflexivity. Qed.

(** From attempt 1024 on, the product [2 ** attempt * request_delay] does
    not exist: the int operand has no float value. *)
Example backoff_overflow :
  backoff_delay 2 1023 = Some infinity /\ backoff_delay 2 1024 = None.
Proof. vm_compute. split; reflexivity. Qed.

End RetryExamples.

(** ** The claims at concrete inputs *)

Section Witnesses.

Import PyStr ScoringEngine.



Lemma should_exclude_iff_witness :
  should_exclude_job capital_config intern_job = true.
Proof.
  apply (proj2 (should_exclude_iff capital_config intern_job)). left.
  exists "Intern"%string. split; [now left|].
  apply contains_spec. vm_compute. reflexivity.
Defined.

Lemma empty_title_scores_zero_witness :
  _score_title_match veto_config EmptyString = 0%float /\
  forall t, t <> EmptyString -> _score_title_match veto_config t = 50%float.
Proof. apply (proj2 (empty_title_scores_zero veto_config)). reflexivity. Defined.

(** Two keywords out of three: [(2 / 3) * 100] in binary64, the float
    Python prints as [66.66666666666666]. *)
Example two_thirds :
  _score_keyword_match veto_config "Rust and solidity, on-chain"
  = 0x1.0aaaaaaaaaaaap+6%float.
Proof. vm_compute. reflexivity. Qed.

(** With an empty description and no preferred keyword the sub-score is
    0, not 50: the description is tested first. *)
Example empty_description_first :
  _score_keyword_match example_config EmptyString = 0%float /\
  _score_keyword_match
    (mkConfig (scoring example_config)
              (mkFilters [] [] [] [] [] (location_config (filters example_config))))
    EmptyString = 0%float.
Proof. split; reflexivity. Qed.

End Witnesses.

Section RetryLimits.

Import Http.

(** Beyond 1024 retries the back-off itself fails: attempt 1024 raises
    [OverflowError] instead of sleeping, after 1025 requests. *)
Example overflow_stops_retries :
  fst (fst (get whole_url (client 2000) dead_network board)) = Raise OverflowError /\
  requests (snd (get whole_url (client 2000) dead_network board)) = 1025%nat.
Proof. vm_compute. split; reflexivity. Qed.

(** The gate of the rate limiter: a host requested half a second ago is
    requested again after a wait of one second and a half. *)
Example rate_limit_wait :
  let c := mkHttpClient 2 30 2 {[ board := 10%float ]} "Mozilla/5.0" in
  let w := mkWorld (fun _ => 10.5%float) (fun _ => inr (mkResponse 200 "[]")) in
  snd (get whole_url c w board) = [EvSleep 1.5; EvRequest board].
Proof. vm_compute. reflexivity. Qed.

End RetryLimits.

(** ** Letter case and whitespace beyond ASCII *)

Section UnicodeExamples.

Import PyStr ScoringEngine.

(** [str.lower] on accented capitals, on a capital sigma at the end and
    inside a word, and on the dotted capital I. *)
Example lower_beyond_ascii :
  lower "ÖSTERREICH ΟΔΟΣ ΣΑΣ İstanbul" = "österreich οδος σας i̇stanbul"%string.
Proof. vm_compute. reflexivity. Qed.

(** An excluded location written in lower case vetoes the location
    written with a capital letter outside ASCII. *)
Example excluded_location_umlaut :
  _score_location_match
    (mkConfig (scoring veto_config)
              (mkFilters [] [] [] [] []
                         (mkLocationConfig ["österreich"]%string false [])))
    "Österreich"
  = 0%float.
Proof. vm_compute. reflexivity. Qed.

(** A preferred keyword with a capital letter outside ASCII is found in a
    description written in lower case. *)
Example preferred_keyword_umlaut :
  _score_keyword_match
    (mkConfig (scoring veto_config)
              (mkFilters [] ["Öl"]%string [] [] [] (mkLocationConfig [] false [])))
    "öl und gas"
  = 100%float.
Proof. vm_compute. reflexivity. Qed.

(** An exclude keyword in capitals excludes the job that has the word in
    lower case. *)
Example exclude_keyword_accent :
  should_exclude_job
    (mkConfig (scoring veto_config)
              (mkFilters [] [] ["ÉTÉ"]%string [] [] (mkLocationConfig [] false [])))
    (mkJob "Stage d'été" "Acme" "Paris" "https://acme.example/4" EmptyString
           None None None None "html_web3_career" 0%float (Some "4"%string))
  = true.
Proof. vm_compute. reflexivity. Qed.

(** [_clean_text] strips and collapses the no-break space, the em space
    and the ideographic space like the ASCII ones. *)
Example clean_text_unicode_spaces :
  BaseScraper._clean_text "  Senior  Dev 　" = "Senior Dev"%string.
Proof. vm_compute. reflexivity. Qed.

End UnicodeExamples.

(* ===================================================================== *)
(** * Further properties of the pipeline *)
(* ===================================================================== *)

(** ** The scoring loop of [JobHunter.run] *)

Section ScoreLoop.

Import ScoringEngine JobDatabase JobHunter.

Variable cfg : Config.
Variable clock : nat -> datetime.

Lemma score_loop_spec (db : gmap string Row) (jobs : list Job) (acc : Acc) :
  fold_left (score_step cfg clock db) jobs acc
  = mkAcc (position acc + List.length jobs)
          (acc_qualified acc ++ qualified_from cfg clock (position acc) jobs)
          (acc_new acc
           ++ List.filter (is_new_job db) (qualified_from cfg clock (position acc) jobs)).
Proof.
  revert acc. induction jobs as [|job rest IH]; intros [p q n]; cbn [fold_left].
  - cbn. now rewrite Nat.add_0_r, !app_nil_r.
  - rewrite IH. unfold score_step. cbn [position acc_qualified acc_new qualified_from].
    destruct (should_exclude_job cfg job).
    + cbn [position acc_qualified acc_new List.length]. f_equal. lia.
    + cbv zeta. destruct (PrimFloat.ltb _ _).
      * cbn [position acc_qualified acc_new List.length]. f_equal. lia.
      * cbn [position acc_qualified acc_new List.length List.filter].
        destruct (is_new_job db _); rewrite <- ?app_assoc; cbn [app]; f_equal; lia.
Qed.

Lemma run_qualified (stamp : nat -> datetime) (dry : bool) (all_jobs : list Job)
    (db : gmap string Row) :
  qualified_jobs (run cfg clock stamp dry all_jobs db)
  = qualified_from cfg clock 0 all_jobs.
Proof.
  unfold run. rewrite score_loop_spec. cbn [position acc_qualified acc_new app].
  destruct (if negb dry then _ else _) as [[n db1] log1].
  destruct (_ && _); reflexivity.
Qed.

Lemma run_new (stamp : nat -> datetime) (dry : bool) (all_jobs : list Job)
    (db : gmap string Row) :
  new_jobs (run cfg clock stamp dry all_jobs db)
  = List.filter (is_new_job db) (qualified_from cfg clock 0 all_jobs).
Proof.
  unfold run. rewrite score_loop_spec. cbn [position acc_qualified acc_new app].
  destruct (if negb dry then _ else _) as [[n db1] log1].
  destruct (_ && _); reflexivity.
Qed.

Lemma run_total (stamp : nat -> datetime) (dry : bool) (all_jobs : list Job)
    (db : gmap string Row) :
  total_scraped (run cfg clock stamp dry all_jobs db) = List.length all_jobs.
Proof.
  unfold run.
  destruct (if negb dry then _ else _) as [[n db1] log1].
  destruct (_ && _); reflexivity.
Qed.

Lemma qualified_from_length (i : nat) (jobs : list Job) :
  (List.length (qualified_from cfg clock i jobs) <= List.length jobs)%nat.
Proof.
  revert i. induction jobs as [|job rest IH]; intros i; cbn [qualified_from List.length].
  - lia.
  - specialize (IH (S i)).
    destruct (should_exclude_job cfg job); [lia|].
    cbv zeta. destruct (PrimFloat.ltb _ _); cbn [List.length]; lia.
Qed.

Lemma qualified_from_In (i : nat) (jobs : list Job) (j : Job) :
  In j (qualified_from cfg clock i jobs) <->
  exists k orig,
    jobs !! k = Some orig /\
    should_exclude_job cfg orig = false /\
    PrimFloat.ltb (score_job cfg (clock (i + k)%nat) orig) (min_score (scoring cfg)) = false /\
    j = set_score orig (score_job cfg (clock (i + k)%nat) orig).
Proof.
  revert i. induction jobs as [|job rest IH]; intros i; cbn [qualified_from].
  - split; [contradiction|]. intros [k [orig [H _]]]. discriminate.
  - assert (Hshift : In j (qualified_from cfg clock (S i) rest) <->
            exists k orig, (job :: rest) !! S k = Some orig /\
              should_exclude_job cfg orig = false /\
              PrimFloat.ltb (score_job cfg (clock (i + S k)%nat) orig)
                            (min_score (scoring cfg)) = false /\
              j = set_score orig (score_job cfg (clock (i + S k)%nat) orig)).
    { rewrite IH. split; intros [k [orig H]]; exists k, orig;
        replace (i + S k)%nat with (S i + k)%nat in * by lia; exact H. }
    destruct (should_exclude_job cfg job) eqn:Ex.
    + rewrite Hshift. split.
      * intros [k [orig H]]. now exists (S k), orig.
      * intros [[|k] [orig [H1 [H2 H3]]]].
        -- injection H1 as <-. congruence.
        -- now exists k, orig.
    + cbv zeta. change (score (set_score job ?s)) with s.
      destruct (PrimFloat.ltb _ _) eqn:Elt.
      * rewrite Hshift. split.
        -- intros [k [orig H]]. now exists (S k), orig.
        -- intros [[|k] [orig [H1 [H2 [H3 H4]]]]].
           ++ injection H1 as <-. rewrite Nat.add_0_r in H3. congruence.
           ++ now exists k, orig.
      * cbn [In]. rewrite Hshift. split.
        -- intros [<- | [k [orig H]]].
           ++ exists 0%nat, job. rewrite Nat.add_0_r. now repeat split.
           ++ now exists (S k), orig.
        -- intros [[|k] [orig [H1 [H2 [H3 H4]]]]].
           ++ injection H1 as <-. rewrite Nat.add_0_r in H4. now left.
           ++ right. now exists k, orig.
Qed.

End ScoreLoop.

(** ** The table of seen jobs *)

Section DatabaseFacts.

Import JobDatabase.

Lemma is_new_job_lookup (db : gmap string Row) (job : Job) :
  is_new_job db job = true <-> db !! key job = None.
Proof. unfold is_new_job. destruct (db !! key job); split; congruence. Qed.

Lemma is_new_job_known (db : gmap string Row) (job : Job) :
  is_new_job db job = false <-> is_Some (db !! key job).
Proof.
  unfold is_new_job. destruct (db !! key job) as [r|]; split; try congruence.
  - intros _. now exists r.
  - intros [r H]. discriminate.
Qed.

(** X8. Saving a job as new records it. The table then knows the job, the
    row holds the job as given, flagged new, with both timestamps equal to
    the time of the save, and no other row is touched. *)
Theorem save_new_job_recorded (now : datetime) (db : gmap string Row) (job : Job) :
  is_new_job (save_job now db job true) job = false /\
  save_job now db job true !! key job = Some (mkRow job now now true) /\
  forall k : string, k <> key job -> save_job now db job true !! k = db !! k.
Proof.
  unfold save_job. split; [|split].
  - apply is_new_job_known. rewrite lookup_insert_eq. now eexists.
  - apply lookup_insert_eq.
  - intros k Hk. now apply lookup_insert_ne.
Qed.

(** X9. The [UPDATE] of a job the table does not know writes nothing: the
    job is not added by it. *)
Theorem update_unknown_job_noop (now : datetime) (db : gmap string Row) (job : Job) :
  is_new_job db job = true -> save_job now db job false = db.
Proof.
  intros H. apply is_new_job_lookup in H. unfold save_job.
  apply map_eq. intros k. destruct (decide (key job = k)) as [<-|Hne].
  - now rewrite lookup_alter_eq, H.
  - now rewrite lookup_alter_ne.
Qed.

(** X10. The [UPDATE] of a known job changes its score and [last_seen] only:
    the other columns stay as they were first stored, [first_seen] and the
    new-flag included, and no other row is touched. *)
Theorem update_known_job (now : datetime) (db : gmap string Row) (job : Job) (r : Row) :
  db !! key job = Some r ->
  save_job now db job false !! key job
  = Some (mkRow (set_score (row_job r) (score job)) (first_seen r) now (is_new r)) /\
  forall k : string, k <> key job -> save_job now db job false !! k = db !! k.
Proof.
  intros H. unfold save_job. split.
  - rewrite lookup_alter_eq, H. now destruct r.
  - intros k Hk. now apply lookup_alter_ne.
Qed.

Lemma mark_all_as_seen_lookup (db : gmap string Row) (k : string) :
  mark_all_as_seen db !! k
  = (fun r => mkRow (row_job r) (first_seen r) (last_seen r) false) <$> db !! k.
Proof. unfold mark_all_as_seen. apply lookup_fmap. Qed.

Lemma mark_all_as_seen_count (db : gmap string Row) :
  get_new_jobs_count (mark_all_as_seen db) = 0%nat.
Proof.
  unfold get_new_jobs_count. apply map_size_empty_iff, map_empty. intros k.
  apply map_lookup_filter_None. right. intros r Hr.
  rewrite mark_all_as_seen_lookup in Hr.
  destruct (db !! k) as [r0|]; [|discriminate].
  injection Hr as <-. cbn. discriminate.
Qed.

(** X11. After [mark_all_as_seen] no row is flagged new, the count of new
    jobs is 0, and the table knows exactly the jobs it knew before, with
    the same stored job and timestamps. *)
Theorem mark_all_as_seen_clears (db : gmap string Row) :
  get_new_jobs_count (mark_all_as_seen db) = 0%nat /\
  (forall job, is_new_job (mark_all_as_seen db) job = is_new_job db job) /\
  (forall k r, mark_all_as_seen db !! k = Some r ->
     is_new r = false /\
     exists r0, db !! k = Some r0 /\ row_job r = row_job r0 /\
                first_seen r = first_seen r0 /\ last_seen r = last_seen r0).
Proof.
  split; [|split].
  - apply mark_all_as_seen_count.
  - intros job. unfold is_new_job. rewrite mark_all_as_seen_lookup.
    now destruct (db !! key job).
  - intros k r Hr. rewrite mark_all_as_seen_lookup in Hr.
    destruct (db !! k) as [r0|]; [|discriminate].
    injection Hr as <-. split; [reflexivity|]. now exists r0.
Qed.

End DatabaseFacts.

(** ** Equality of scored jobs *)

Section JobEquality.

Import JobHunter.

(** A float that is above some float is not a NaN: it equals itself. *)
Lemma leb_eqb_refl (a b : float) :
  PrimFloat.leb a b = true -> PrimFloat.eqb b b = true.
Proof.
  rewrite leb_spec, FloatAxioms.eqb_spec. unfold SFleb, SFeqb.
  destruct (Prim2SF b) as [s|s| |s m e].
  - reflexivity.
  - now destruct s.
  - destruct (Prim2SF a); discriminate.
  - intros _. cbn. rewrite Z.compare_refl, Pos.compare_cont_refl. now destruct s.
Qed.

Lemma score_job_eqb_refl (cfg : Config) (now : datetime) (job : Job) :
  PrimFloat.eqb (ScoringEngine.score_job cfg now job)
                (ScoringEngine.score_job cfg now job) = true.
Proof.
  apply (leb_eqb_refl 0). unfold ScoringEngine.score_job.
  apply clamp_bounds; reflexivity.
Qed.

Lemma opt_eqb_refl {A : Type} (eqb : A -> A -> bool) (x : option A) :
  (forall a, eqb a a = true) -> opt_eqb eqb x x = true.
Proof. intros H. destruct x; simpl; auto. Qed.

Lemma job_eqb_refl (j : Job) :
  PrimFloat.eqb (score j) (score j) = true -> job_eqb j j = true.
Proof.
  intros Hs. unfold job_eqb.
  rewrite !String.eqb_refl, Hs, !(opt_eqb_refl String.eqb) by apply String.eqb_refl.
  rewrite (opt_eqb_refl Z.eqb) by apply Z.eqb_refl. reflexivity.
Qed.

Lemma job_in_here (j : Job) (jobs : list Job) :
  PrimFloat.eqb (score j) (score j) = true -> In j jobs -> job_in j jobs = true.
Proof.
  intros Hs Hin. unfold job_in. apply existsb_exists. exists j.
  split; [assumption | now apply job_eqb_refl].
Qed.

End JobEquality.

(** ** What a real run leaves in the table *)

Section RunFacts.

Import ScoringEngine JobDatabase JobHunter.

Variable cfg : Config.
Variable clock : nat -> datetime.

Lemma qualified_from_score (i : nat) (jobs : list Job) (j : Job) :
  In j (qualified_from cfg clock i jobs) ->
  PrimFloat.eqb (score j) (score j) = true.
Proof.
  intros H. apply qualified_from_In in H. destruct H as [k [orig [_ [_ [_ ->]]]]].
  apply score_job_eqb_refl.
Qed.

Lemma save_job_keeps (now : datetime) (db : gmap string Row) (job : Job)
    (flag : bool) (k : string) :
  is_Some (db !! k) -> is_Some (save_job now db job flag !! k).
Proof.
  intros Hk. unfold save_job. destruct flag.
  - destruct (decide (key job = k)) as [<-|Hne].
    + rewrite lookup_insert_eq. now eexists.
    + now rewrite lookup_insert_ne.
  - now apply lookup_alter_is_Some.
Qed.

(** The saving loop never forgets a key, and leaves a row for every job
    it is given that is either counted as new or already known. *)
Lemma save_loop_keys (stamp : nat -> datetime) (news jobs : list Job)
    (i : nat) (db : gmap string Row) (log : list DbWrite) :
  (forall k, is_Some (db !! k) ->
             is_Some ((fold_left (save_step stamp news) jobs (i, db, log)).1.2 !! k)) /\
  (forall j, In j jobs ->
             job_in j news = true \/ is_Some (db !! key j) ->
             is_Some ((fold_left (save_step stamp news) jobs (i, db, log)).1.2 !! key j)).
Proof.
  revert i db log. induction jobs as [|job rest IH]; intros i db log; cbn [fold_left].
  - split; [auto | intros j []].
  - unfold save_step at 2. cbv zeta.
    destruct (IH (S i) (save_job (stamp i) db job (job_in job news))
                 (log ++ [if job_in job news then InsertOrReplace (key job)
                          else UpdateSeen (key job)])) as [IH1 IH2].
    split.
    + intros k Hk. apply IH1. now apply save_job_keeps.
    + intros j [<- | Hin] Hj.
      * apply IH1. destruct Hj as [Hj | Hj].
        -- rewrite Hj. unfold save_job. rewrite lookup_insert_eq. now eexists.
        -- now apply save_job_keeps.
      * apply IH2; [assumption|]. destruct Hj as [Hj | Hj]; [now left|].
        right. now apply save_job_keeps.
Qed.

Lemma run_database (stamp : nat -> datetime) (all_jobs : list Job)
    (db : gmap string Row) :
  let q := qualified_from cfg clock 0 all_jobs in
  let n := List.filter (is_new_job db) q in
  let db1 := (fold_left (save_step stamp n) q (0%nat, db, [])).1.2 in
  database (run cfg clock stamp false all_jobs db)
  = if Nat.eqb (List.length n) 0 then db1 else mark_all_as_seen db1.
Proof.
  cbv zeta. unfold run. rewrite score_loop_spec.
  cbn [position acc_qualified acc_new app negb andb].
  destruct (fold_left _ _ _) as [[i db1] log1]. cbn [fst snd].
  now destruct (Nat.eqb _ 0).
Qed.

Lemma mark_keeps (db : gmap string Row) (k : string) :
  is_Some (db !! k) -> is_Some (mark_all_as_seen db !! k).
Proof.
  intros [r H]. unfold mark_all_as_seen. rewrite lookup_fmap, H. now eexists.
Qed.

Lemma key_set_score (j : Job) (s : float) : key (set_score j s) = key j.
Proof. reflexivity. Qed.

(** Every qualified job has a row after a real run, and so has every job
    the table knew. *)
Lemma run_keeps_rows (stamp : nat -> datetime) (all_jobs : list Job)
    (db : gmap string Row) :
  (forall j, In j (qualified_from cfg clock 0 all_jobs) ->
             is_Some (database (run cfg clock stamp false all_jobs db) !! key j)) /\
  (forall k, is_Some (db !! k) ->
             is_Some (database (run cfg clock stamp false all_jobs db) !! k)).
Proof.
  rewrite run_database. cbv zeta.
  set (q := qualified_from cfg clock 0 all_jobs).
  set (n := List.filter (is_new_job db) q).
  destruct (save_loop_keys stamp n q 0 db []) as [K1 K2].
  assert (Hq : forall j, In j q ->
            is_Some ((fold_left (save_step stamp n) q (0%nat, db, [])).1.2 !! key j)).
  { intros j Hj. apply K2; [assumption|].
    destruct (is_new_job db j) eqn:E.
    - left. apply job_in_here; [now apply (qualified_from_score 0 all_jobs)|].
      apply filter_In. now split.
    - right. now apply is_new_job_known. }
  split.
  - intros j Hj. destruct (Nat.eqb _ 0); [|apply mark_keeps]; now apply Hq.
  - intros k Hk. destruct (Nat.eqb _ 0); [|apply mark_keeps]; now apply K1.
Qed.

End RunFacts.

(** ** The results of a run *)

Section RunResults.

Import ScoringEngine JobDatabase JobHunter.

(** X1. The new jobs of a run are the qualified jobs the table does not
    know, in the same order; whether a job qualifies does not depend on the
    table. *)
Theorem new_jobs_are_unknown_qualified (cfg : Config) (clock stamp : nat -> datetime)
    (dry : bool) (all_jobs : list Job) (db db' : gmap string Row) :
  new_jobs (run cfg clock stamp dry all_jobs db)
  = List.filter (is_new_job db) (qualified_jobs (run cfg clock stamp dry all_jobs db)) /\
  qualified_jobs (run cfg clock stamp dry all_jobs db)
  = qualified_jobs (run cfg clock stamp dry all_jobs db').
Proof. now rewrite run_new, !run_qualified. Qed.

(** X2. The three counts of a run are ordered: no more new jobs than
    qualified jobs, no more qualified jobs than scraped jobs. *)
Theorem counts_ordered (cfg : Config) (clock stamp : nat -> datetime)
    (dry : bool) (all_jobs : list Job) (db : gmap string Row) :
  let r := run cfg clock stamp dry all_jobs db in
  (List.length (new_jobs r) <= List.length (qualified_jobs r))%nat /\
  (List.length (qualified_jobs r) <= total_scraped r)%nat.
Proof.
  cbv zeta. rewrite run_new, run_qualified, run_total. split.
  - apply List.filter_length_le.
  - apply qualified_from_length.
Qed.

(** X3. A job is among the qualified jobs of a run exactly when it is a
    scraped job that [should_exclude_job] lets through, carrying the score
    [score_job] gave it when its turn came, and that score is not below
    [min_score]. An excluded job is never there, whatever it would score. *)
Theorem qualified_jobs_iff (cfg : Config) (clock stamp : nat -> datetime)
    (dry : bool) (all_jobs : list Job) (db : gmap string Row) (j : Job) :
  In j (qualified_jobs (run cfg clock stamp dry all_jobs db)) <->
  exists k orig,
    all_jobs !! k = Some orig /\
    should_exclude_job cfg orig = false /\
    PrimFloat.ltb (score_job cfg (clock k) orig) (min_score (scoring cfg)) = false /\
    j = set_score orig (score_job cfg (clock k) orig).
Proof. rewrite run_qualified. apply qualified_from_In. Qed.

(** X4. Every qualified job of a run has a score between 0 and 100. *)
Theorem qualified_scores_bounded (cfg : Config) (clock stamp : nat -> datetime)
    (dry : bool) (all_jobs : list Job) (db : gmap string Row) (j : Job) :
  In j (qualified_jobs (run cfg clock stamp dry all_jobs db)) ->
  PyFloat.le 0 (score j) /\ PyFloat.le (score j) 100.
Proof.
  rewrite run_qualified. intros H. apply qualified_from_In in H.
  destruct H as [k [orig [_ [_ [_ ->]]]]].
  change (score (set_score orig ?s)) with s. unfold score_job.
  apply clamp_bounds; reflexivity.
Qed.

(** X5. A real run leaves a row for every qualified job, and forgets none
    of the jobs the table knew before. *)
Theorem run_stores_qualified (cfg : Config) (clock stamp : nat -> datetime)
    (all_jobs : list Job) (db : gmap string Row) :
  let r := run cfg clock stamp false all_jobs db in
  (forall j, In j (qualified_jobs r) -> is_new_job (database r) j = false) /\
  (forall job, is_new_job db job = false -> is_new_job (database r) job = false).
Proof.
  cbv zeta. rewrite run_qualified.
  destruct (run_keeps_rows cfg clock stamp all_jobs db) as [H1 H2]. split.
  - intros j Hj. apply is_new_job_known. now apply H1.
  - intros job Hjob. apply is_new_job_known. apply H2. now apply is_new_job_known.
Qed.

(** X6. Running again on the table a real run left. At the same clock
    readings over the same scraped jobs, the second run (real or dry) finds
    no new job. At any clock readings, a new job of the second run never
    has the identifier of a job that qualified in the first. *)
Theorem rerun_finds_nothing_new (cfg : Config) (clock clock' stamp stamp' : nat -> datetime)
    (dry : bool) (all_jobs : list Job) (db : gmap string Row) :
  let first := run cfg clock stamp false all_jobs db in
  new_jobs (run cfg clock stamp' dry all_jobs (database first)) = [] /\
  forall j j1,
    In j (new_jobs (run cfg clock' stamp' dry all_jobs (database first))) ->
    In j1 (qualified_jobs first) ->
    job_id j <> job_id j1.
Proof.
  cbv zeta. destruct (run_keeps_rows cfg clock stamp all_jobs db) as [H _].
  split.
  - rewrite run_new.
    induction (qualified_from cfg clock 0 all_jobs) as [|j q IH]; [reflexivity|].
    cbn [List.filter].
    replace (is_new_job _ j) with false
      by (symmetry; apply is_new_job_known, H; now left).
    apply IH. intros j' Hj'. apply H. now right.
  - intros j j1 Hj Hj1 Heq. rewrite run_new in Hj. rewrite run_qualified in Hj1.
    apply filter_In in Hj. destruct Hj as [_ Hnew].
    apply is_new_job_lookup in Hnew. specialize (H j1 Hj1).
    unfold key in *. rewrite Heq in Hnew. rewrite Hnew in H. now destruct H.
Qed.

(** X7. After a real run that found a new job, no row of the table is
    flagged new. *)
Theorem no_new_flag_after_run (cfg : Config) (clock stamp : nat -> datetime)
    (all_jobs : list Job) (db : gmap string Row) :
  new_jobs (run cfg clock stamp false all_jobs db) <> [] ->
  get_new_jobs_count (database (run cfg clock stamp false all_jobs db)) = 0%nat.
Proof.
  rewrite run_new, run_database. cbv zeta. intros Hne.
  destruct (List.filter _ _) as [|j n] eqn:E; [congruence|].
  cbn [List.length Nat.eqb]. apply mark_all_as_seen_count.
Qed.

End RunResults.

(** ** [HttpClient.get] in any network *)

Section GetFacts.

Import Http.

Variable url_host : string -> string.

Lemma requests_cons_request (url : string) (evs : list Event) :
  requests (EvRequest url :: evs) = S (requests evs).
Proof. reflexivity. Qed.

Lemma requests_cons_sleep (d : float) (evs : list Event) :
  requests (EvSleep d :: evs) = requests evs.
Proof. reflexivity. Qed.

(** The loop sends at most one request per iteration. *)
Lemma get_loop_requests (w : World) (url : string) (remaining attempt reads : nat)
    (c : HttpClient) :
  (requests (get_loop url_host w url remaining attempt reads c).2 <= remaining)%nat.
Proof.
  revert attempt reads c.
  induction remaining as [|n IH]; intros attempt reads c; cbn [get_loop].
  - cbn. lia.
  - destruct (try_once w attempt) as [resp|e]; [cbn; lia|].
    destruct (caught e); [|cbn; lia].
    destruct (Z.of_nat attempt =? max_retries c); [cbn; lia|].
    destruct (backoff_delay (request_delay c) attempt) as [delay|]; [|cbn; lia].
    specialize (IH (S attempt) (S reads)
                   (set_last_request_time c
                      (<[url_host url := time_at w reads]> (last_request_time c)))).
    destruct (get_loop _ _ _ _ _ _ _) as [[r c2] evs]. cbn [snd] in *.
    rewrite requests_cons_request, requests_cons_sleep. lia.
Qed.

(** X12. Whatever the network does, one call of [get] sends at most
    [max_retries + 1] requests, and none at all when [max_retries] is
    negative. *)
Theorem get_requests_bounded (c : HttpClient) (w : World) (url : string) :
  (requests (get url_host c w url).2 <= Z.to_nat (max_retries c + 1))%nat.
Proof.
  unfold get. pose proof (requests_rate_limit url_host c w url) as Hw.
  destruct (rate_limit url_host c w url) as [waits reads]. cbn [fst] in Hw.
  pose proof (get_loop_requests w url (Z.to_nat (max_retries c + 1)) 0 reads c) as Hl.
  destruct (get_loop _ _ _ _ _ _ _) as [[r c'] evs]. cbn [snd] in *.
  rewrite requests_app, Hw. lia.
Qed.

(** What the loop does to the client: the settings stay, the timestamps of
    the other hosts stay, and the host requested gets the clock reading
    taken before the last request. *)
Lemma get_loop_client (w : World) (url : string) (remaining attempt reads : nat)
    (c : HttpClient) :
  let c' := (get_loop url_host w url remaining attempt reads c).1.2 in
  request_delay c' = request_delay c /\ timeout c' = timeout c /\
  max_retries c' = max_retries c /\ user_agent c' = user_agent c /\
  (forall h, h <> url_host url ->
             last_request_time c' !! h = last_request_time c !! h) /\
  (remaining <> 0%nat ->
   exists k, last_request_time c' !! url_host url = Some (time_at w k)) /\
  (remaining = 0%nat -> c' = c).
Proof.
  cbv zeta. revert attempt reads c.
  induction remaining as [|n IH]; intros attempt reads c; cbn [get_loop].
  - cbn. repeat split; congruence.
  - set (c1 := set_last_request_time c _).
    assert (Hc1 : request_delay c1 = request_delay c /\ timeout c1 = timeout c /\
                  max_retries c1 = max_retries c /\ user_agent c1 = user_agent c /\
                  (forall h, h <> url_host url ->
                             last_request_time c1 !! h = last_request_time c !! h) /\
                  (S n <> 0%nat ->
                   exists k, last_request_time c1 !! url_host url = Some (time_at w k)) /\
                  (S n = 0%nat -> c1 = c)).
    { subst c1. cbn. repeat split.
      - intros h Hh. now apply lookup_insert_ne.
      - intros _. exists reads. apply lookup_insert_eq.
      - discriminate. }
    destruct (try_once w attempt) as [resp|e]; [exact Hc1|].
    destruct (caught e); [|exact Hc1].
    destruct (Z.of_nat attempt =? max_retries c); [exact Hc1|].
    destruct (backoff_delay (request_delay c) attempt) as [delay|]; [|exact Hc1].
    specialize (IH (S attempt) (S reads) c1).
    destruct (get_loop _ _ _ _ _ _ _) as [[r c2] evs]. cbn [fst snd] in *.
    destruct IH as (I1 & I2 & I3 & I4 & I5 & I6 & I7).
    destruct Hc1 as (J1 & J2 & J3 & J4 & J5 & J6 & _).
    repeat split; try congruence.
    + intros h Hh. rewrite I5 by assumption. now apply J5.
    + intros _. destruct n as [|n'].
      * rewrite (I7 eq_refl). now apply J6.
      * now apply I6.
Qed.

(** X13. A call of [get] changes nothing in the client but the timestamp
    of the host it requests: delay, timeout, retry budget and user agent
    stay, the timestamps of the other hosts stay, and when the retry budget
    is not negative the host requested has a timestamp afterwards, one of
    the clock readings of the call. *)
Theorem get_touches_one_host (c : HttpClient) (w : World) (url : string) :
  let c' := (get url_host c w url).1.2 in
  request_delay c' = request_delay c /\ timeout c' = timeout c /\
  max_retries c' = max_retries c /\ user_agent c' = user_agent c /\
  (forall h, h <> url_host url ->
             last_request_time c' !! h = last_request_time c !! h) /\
  (0 <= max_retries c ->
   exists k, last_request_time c' !! url_host url = Some (time_at w k)).
Proof.
  cbv zeta. unfold get.
  destruct (rate_limit url_host c w url) as [waits reads].
  pose proof (get_loop_client w url (Z.to_nat (max_retries c + 1)) 0 reads c) as H.
  cbv zeta in H.
  destruct (get_loop _ _ _ _ _ _ _) as [[r c'] evs]. cbn [fst snd] in *.
  destruct H as (H1 & H2 & H3 & H4 & H5 & H6 & _).
  repeat split; try assumption.
  intros Hm. apply H6. lia.
Qed.

Lemma get_loop_final (w : World) (url : string) (remaining attempt reads : nat)
    (c : HttpClient) :
  final_outcome (try_once w attempt) ->
  exists c',
    get_loop url_host w url (S remaining) attempt reads c
    = (try_once w attempt, c', [EvRequest url]).
Proof.
  intros H. cbn [get_loop]. destruct (try_once w attempt) as [resp|e].
  - eexists. reflexivity.
  - cbn in H. rewrite H. eexists. reflexivity.
Qed.

Lemma get_loop_stops (w : World) (url : string) (e : nat -> Exn)
    (retries extra attempt reads : nat) (c : HttpClient) :
  Z.of_nat (attempt + retries) <= max_retries c ->
  (attempt + retries <= 1024)%nat ->
  (forall k, (attempt <= k < attempt + retries)%nat ->
             try_once w k = Raise (e k) /\ caught (e k) = true) ->
  final_outcome (try_once w (attempt + retries)) ->
  exists c',
    get_loop url_host w url (S (retries + extra)) attempt reads c
    = (try_once w (attempt + retries)%nat, c',
       retry_schedule url (request_delay c) attempt retries).
Proof.
  revert attempt reads c.
  induction retries as [|n IH]; intros attempt reads c Hmax Hbound Hfail Hfinal.
  - rewrite Nat.add_0_r in *. cbn [Nat.add retry_schedule].
    now apply get_loop_final.
  - destruct (Hfail attempt ltac:(lia)) as [Ht Hc].
    rewrite (get_loop_retry url_host _ _ _ _ _ _ _ Ht Hc). cbv zeta.
    replace (Z.of_nat attempt =? max_retries c) with false
      by (symmetry; apply Z.eqb_neq; lia).
    rewrite backoff_delay_finite by lia.
    set (c1 := set_last_request_time c _).
    destruct (IH (S attempt) (S reads) c1) as [c' Heq].
    + cbn [max_retries c1 set_last_request_time]. lia.
    + lia.
    + intros k Hk. apply Hfail. lia.
    + now replace (S attempt + n)%nat with (attempt + S n)%nat by lia.
    + cbn [Nat.add]. rewrite Heq.
      replace (S attempt + n)%nat with (attempt + S n)%nat by lia.
      exists c'. reflexivity.
Qed.

(** X14. [get] ends at the first attempt that gives a 2xx response or raises
    an exception other than the two caught ones. When the attempts before
    attempt [k] fail with caught errors ([k] within the retry budget, and
    at most 1024), the call returns that response, or raises that
    exception, after [k + 1] requests and the [k] back-off sleeps of
    [2^attempt * request_delay]: no request follows. *)
Theorem get_stops_at_first_final (c : HttpClient) (w : World) (url : string)
    (e : nat -> Exn) (k : nat) :
  Z.of_nat k <= max_retries c -> (k <= 1024)%nat ->
  (forall i, (i < k)%nat -> try_once w i = Raise (e i) /\ caught (e i) = true) ->
  final_outcome (try_once w k) ->
  exists c',
    get url_host c w url
    = (try_once w k, c',
       (rate_limit url_host c w url).1 ++ retry_schedule url (request_delay c) 0 k)
    /\ requests ((rate_limit url_host c w url).1
                 ++ retry_schedule url (request_delay c) 0 k) = S k.
Proof.
  intros Hk Hb Hfail Hfinal. unfold get.
  pose proof (requests_rate_limit url_host c w url) as Hw.
  destruct (rate_limit url_host c w url) as [waits reads]. cbn [fst] in *.
  replace (Z.to_nat (max_retries c + 1))
    with (S (k + (Z.to_nat (max_retries c) - k)))%nat by lia.
  destruct (get_loop_stops w url e k (Z.to_nat (max_retries c) - k) 0 reads c)
    as [c' Heq]; try assumption.
  - intros i Hi. apply Hfail. lia.
  - cbn [Nat.add] in Heq. rewrite Heq. exists c'. split; [reflexivity|].
    rewrite requests_app, Hw, requests_schedule. reflexivity.
Qed.

End GetFacts.

(** ** More on scoring and exclusion *)

Section ScoringMore.

Import PyStr ScoringEngine.

(** X16. The recency sub-score never decreases when the posting is more
    recent: of two posted dates, the later one scores at least as much, at
    any scoring time; and a dated posting scores between 10 and 100. *)
Theorem recency_monotone (now earlier later : datetime) :
  earlier <= later ->
  PyFloat.le (_score_recency now (Some earlier)) (_score_recency now (Some later)) /\
  PyFloat.le 10 (_score_recency now (Some earlier)) /\
  PyFloat.le (_score_recency now (Some earlier)) 100.
Proof.
  intros Hle. unfold _score_recency, timedelta_days, PyFloat.le.
  assert (Hd : (now - later) / day <= (now - earlier) / day)
    by (apply Z.div_le_mono; [reflexivity | lia]).
  set (a := (now - later) / day) in *. set (b := (now - earlier) / day) in *.
  clearbody a b. clear Hle.
  destruct (Z.leb_spec b 1); destruct (Z.leb_spec a 1); try lia;
  destruct (Z.leb_spec b 7); destruct (Z.leb_spec a 7); try lia;
  destruct (Z.leb_spec b 30); destruct (Z.leb_spec a 30); try lia;
  destruct (Z.leb_spec b 90); destruct (Z.leb_spec a 90); try lia;
  repeat split; reflexivity.
Qed.

(** X17. An empty exclude keyword excludes every job: the empty string
    occurs in every text. *)
Theorem empty_exclude_keyword_excludes_all (cfg : Config) (job : Job) :
  In EmptyString (exclude_keywords (filters cfg)) ->
  should_exclude_job cfg job = true.
Proof.
  intros H. unfold should_exclude_job.
  replace (existsb _ (exclude_keywords (filters cfg))) with true; [reflexivity|].
  symmetry. apply existsb_exists. exists EmptyString.
  split; [assumption|]. change (lower EmptyString) with EmptyString.
  apply contains_empty.
Qed.

End ScoringMore.

(** ** The identifier of a job, continued *)

Section IdentityMore.

Lemma hex_digit_is_hex (n : Z) : 0 <= n < 16 -> is_hex (MD5.hex_digit n) = true.
Proof.
  intros H.
  assert (Hall : forallb (fun k => is_hex (MD5.hex_digit (Z.of_nat k))) (seq 0 16) = true)
    by (vm_compute; reflexivity).
  rewrite forallb_forall in Hall. specialize (Hall (Z.to_nat n)).
  rewrite Z2Nat.id in Hall by lia. apply Hall, in_seq. lia.
Qed.

Lemma le_bytes_range (k : nat) (n : Z) :
  Forall (fun b => 0 <= b < 256) (MD5.le_bytes k n).
Proof.
  revert n. induction k as [|k IH]; intros n; cbn [MD5.le_bytes]; constructor.
  - change 0xFF with (Z.ones 8). rewrite Z.land_ones by lia.
    apply Z.mod_pos_bound. reflexivity.
  - apply IH.
Qed.

Lemma hex_of_bytes_hex (bs : list Z) :
  Forall (fun b => 0 <= b < 256) bs ->
  all_chars is_hex (MD5.hex_of_bytes bs) = true.
Proof.
  induction 1 as [|b bs Hb _ IH]; [reflexivity|].
  cbn [MD5.hex_of_bytes all_chars]. rewrite IH.
  rewrite (hex_digit_is_hex (Z.shiftr b 4)), (hex_digit_is_hex (Z.land b 0xF));
    [reflexivity| |].
  - change 0xF with (Z.ones 4). rewrite Z.land_ones by lia.
    apply Z.mod_pos_bound. reflexivity.
  - rewrite Z.shiftr_div_pow2 by lia. change (2 ^ 4) with 16. split.
    + apply Z.div_pos; lia.
    + apply Z.div_lt_upper_bound; lia.
Qed.

Lemma hexdigest_hex (s : string) : all_chars is_hex (MD5.hexdigest s) = true.
Proof.
  unfold MD5.hexdigest, MD5.digest. apply hex_of_bytes_hex.
  repeat (apply Forall_app; split); apply le_bytes_range.
Qed.

Lemma hexdigest_truthy (s : string) : PyStr.truthy (MD5.hexdigest s) = true.
Proof.
  pose proof (hexdigest_length s) as H.
  destruct (MD5.hexdigest s); [discriminate H | reflexivity].
Qed.

Lemma post_init_given (j : Job) :
  PyStr.opt_truthy (job_id j) = true -> post_init j = j.
Proof. intros H. unfold post_init. now rewrite H. Qed.

Lemma post_init_generated (j : Job) :
  PyStr.opt_truthy (job_id j) = false ->
  post_init j = set_job_id j (MD5.hexdigest (fingerprint_content j)).
Proof. intros H. unfold post_init. now rewrite H. Qed.

(** X18. After [__post_init__] every job has a non-empty identifier: the
    one the source gave, or else 32 lower-case hexadecimal digits. The
    other fields are left as they were, and a second [__post_init__]
    changes nothing. *)
Theorem post_init_identified (j : Job) :
  (exists id, job_id (post_init j) = Some id /\ id <> EmptyString /\
              (job_id j = Some id \/
               String.length id = 32%nat /\ all_chars is_hex id = true)) /\
  post_init (post_init j) = post_init j /\
  set_job_id (post_init j) EmptyString = set_job_id j EmptyString.
Proof.
  destruct (PyStr.opt_truthy (job_id j)) eqn:E.
  - rewrite !(post_init_given j E). split; [|split; reflexivity].
    destruct (job_id j) as [[|c id]|]; try discriminate E.
    exists (String c id). repeat split; [discriminate | now left].
  - rewrite (post_init_generated j E).
    set (d := MD5.hexdigest (fingerprint_content j)).
    assert (Ht : PyStr.truthy d = true) by apply hexdigest_truthy.
    split; [|split].
    + exists d. split; [reflexivity|]. split.
      * intros H. rewrite H in Ht. discriminate Ht.
      * right. split; [apply hexdigest_length | apply hexdigest_hex].
    + apply post_init_given. exact Ht.
    + reflexivity.
Qed.

End IdentityMore.

(** ** The postings of a listing page *)

Section HtmlMore.

Import HTMLScraper.

Lemma jobs_from_length (site_name base_url : string) (clock : nat -> datetime)
    (i : nat) (elements : list Element) :
  (List.length (jobs_from site_name base_url clock i elements)
   <= List.length elements)%nat.
Proof.
  revert i. induction elements as [|element rest IH]; intros i; cbn [jobs_from List.length].
  - lia.
  - specialize (IH (S i)).
    destruct (job_of_element _ _ _ _); cbn [List.length]; lia.
Qed.

(** X19. A page gives at most 50 jobs, and no more jobs than it has
    elements. *)
Theorem html_at_most_50 (site_name base_url : string) (clock : nat -> datetime)
    (job_elements : list Element) :
  (List.length (_scrape_html_site site_name base_url clock job_elements) <= 50)%nat /\
  (List.length (_scrape_html_site site_name base_url clock job_elements)
   <= List.length job_elements)%nat.
Proof.
  unfold _scrape_html_site.
  pose proof (jobs_from_length site_name base_url clock 0 (firstn 50 job_elements)) as H.
  rewrite List.length_firstn in H. lia.
Qed.

Lemma job_of_element_shape (site_name base_url : string) (now : datetime)
    (element : Element) (job : Job) :
  job_of_element site_name base_url now element = Some job ->
  source job = ("html_" +:+ site_name)%string /\
  description job = EmptyString /\
  experience_level job = None /\ job_type job = None /\ salary_range job = None /\
  job_id job
  = Some (MD5.hexdigest (title job +:+ "_" +:+ company job +:+ "_" +:+ url job)) /\
  (PyStr.startswith (url job) "http" = true \/
   exists href, url job = base_url +:+ href).
Proof.
  unfold job_of_element.
  destruct (title_elem element) as [t|]; [|discriminate].
  destruct (company_elem element) as [c|]; [|discriminate].
  destruct (match url_elem element with Some a => a | None => Some EmptyString end)
    as [href|]; [|discriminate].
  intros H. injection H as <-.
  match goal with
  | |- context [post_init ?j] =>
      rewrite (post_init_generated j (eq_refl : PyStr.opt_truthy (job_id j) = false))
  end.
  repeat split.
  cbn [url set_job_id].
  destruct (PyStr.startswith href "http") eqn:E; [now left | right; now exists href].
Qed.

(** X20. Every job of a page has the source ["html_" + site_name], an
    empty description, no experience level, job type or salary, a URL that
    starts with "http" or with the base URL of the site, and as identifier
    the MD5 hex digest of its own [title + "_" + company + "_" + url]. Its
    keyword sub-score is therefore 0 under every configuration. *)
Theorem html_job_shape (site_name base_url : string) (clock : nat -> datetime)
    (job_elements : list Element) (job : Job) :
  In job (_scrape_html_site site_name base_url clock job_elements) ->
  (source job = ("html_" +:+ site_name)%string /\
   description job = EmptyString /\
   experience_level job = None /\ job_type job = None /\ salary_range job = None /\
   job_id job
   = Some (MD5.hexdigest (title job +:+ "_" +:+ company job +:+ "_" +:+ url job)) /\
   (PyStr.startswith (url job) "http" = true \/
    exists href, url job = base_url +:+ href)) /\
  forall cfg, ScoringEngine._score_keyword_match cfg (description job) = 0%float.
Proof.
  unfold _scrape_html_site. intros Hin.
  destruct (jobs_from_element _ _ _ _ _ _ Hin) as [k [element [_ He]]].
  pose proof (job_of_element_shape _ _ _ _ _ He) as H.
  split; [exact H|]. intros cfg. destruct H as (_ & Hd & _). now rewrite Hd.
Qed.

End HtmlMore.

(** ** The gate of the rate limiter *)

Section RateLimitFacts.

Import Http.

Variable url_host : string -> string.

Lemma get_loop_starts (w : World) (url : string) (remaining attempt reads : nat)
    (c : HttpClient) :
  exists rest,
    (get_loop url_host w url (S remaining) attempt reads c).2 = EvRequest url :: rest.
Proof.
  cbn [get_loop].
  destruct (try_once w attempt) as [resp|e]; [now eexists|].
  destruct (caught e); [|now eexists].
  destruct (Z.of_nat attempt =? max_retries c); [now eexists|].
  destruct (backoff_delay (request_delay c) attempt) as [delay|]; [|now eexists].
  destruct (get_loop _ _ _ _ _ _ _) as [[r c2] evs]. now eexists.
Qed.

(** X15. What comes first in a call of [get] with a non-negative retry
    budget. A host that has no timestamp yet is requested at once,
    whatever the timestamps of the other hosts. A host requested at time
    [last] is requested at once when [request_delay] or more has elapsed,
    and otherwise after one sleep of [request_delay - elapsed]. *)
Theorem get_first_events (c : HttpClient) (w : World) (url : string) :
  0 <= max_retries c ->
  exists rest,
    (get url_host c w url).2 =
      match last_request_time c !! url_host url with
      | None => EvRequest url :: rest
      | Some last =>
          let elapsed := (time_at w 0 - last)%float in
          if PrimFloat.ltb elapsed (request_delay c)
          then EvSleep (request_delay c - elapsed)%float :: EvRequest url :: rest
          else EvRequest url :: rest
      end.
Proof.
  intros Hm. unfold get, rate_limit.
  replace (Z.to_nat (max_retries c + 1)) with (S (Z.to_nat (max_retries c))) by lia.
  destruct (last_request_time c !! url_host url) as [last|].
  - cbv zeta. destruct (PrimFloat.ltb _ _).
    + destruct (get_loop_starts w url (Z.to_nat (max_retries c)) 0 1 c) as [rest H].
      destruct (get_loop _ _ _ _ _ _ _) as [[r c'] evs]. cbn [snd] in *.
      exists rest. now rewrite H.
    + destruct (get_loop_starts w url (Z.to_nat (max_retries c)) 0 1 c) as [rest H].
      destruct (get_loop _ _ _ _ _ _ _) as [[r c'] evs]. cbn [snd] in *.
      exists rest. now rewrite H.
  - destruct (get_loop_starts w url (Z.to_nat (max_retries c)) 0 0 c) as [rest H].
    destruct (get_loop _ _ _ _ _ _ _) as [[r c'] evs]. cbn [snd] in *.
    exists rest. now rewrite H.
Qed.

End RateLimitFacts.

(** ** Which scrapers run *)

Section ScraperFacts.

Import Scrapers.

Lemma filter_nonempty_existsb {A : Type} (p : A -> bool) (l : list A) :
  List.filter p l <> [] <-> existsb p l = true.
Proof.
  induction l as [|x l IH]; cbn [List.filter existsb].
  - split; [congruence | discriminate].
  - destruct (p x); cbn [orb]; [split; [reflexivity | discriminate] | exact IH].
Qed.

(** X21. [_init_scrapers] creates a scraper exactly when the loop of its
    [scrape] would fetch at least one endpoint: a scraper whose endpoints
    are all switched off is not created, and none is created for nothing.
    The scrapers come in the order Lever, Greenhouse, Ashby, HTML, each at
    most once; a configuration that mentions no site creates all four. *)
Theorem init_scrapers_iff (sites : gmap string bool) :
  (forall kind, In kind (_init_scrapers sites) <-> scraped_endpoints sites kind <> []) /\
  (exists l g a h : bool,
     _init_scrapers sites
     = (if l then [Lever] else []) ++ (if g then [Greenhouse] else [])
       ++ (if a then [Ashby] else []) ++ (if h then [Html] else [])) /\
  _init_scrapers ∅ = [Lever; Greenhouse; Ashby; Html].
Proof.
  split; [|split].
  - intros kind. unfold scraped_endpoints. rewrite filter_nonempty_existsb.
    unfold _init_scrapers.
    destruct kind; cbn [endpoints flag_key];
      repeat match goal with
             | |- context [if existsb ?p ?l then _ else _] =>
                 destruct (existsb p l) eqn:?
             end;
      cbn [app In]; split; intros H;
      repeat match goal with
             | H : _ \/ _ |- _ => destruct H
             | H : False |- _ => destruct H
             end; try discriminate; try congruence; tauto.
  - unfold _init_scrapers. now eexists _, _, _, _.
  - vm_compute. reflexivity.
Qed.

End ScraperFacts.

(** ** The order of floats *)

Section FloatOrder.








End FloatOrder.

(** ** The ranking of the report *)

Section RankingFacts.

Import Notifier.











End RankingFacts.

(** ** The further properties at concrete inputs *)

Section MoreWitnesses.

Import ScoringEngine JobDatabase JobHunter Http HTMLScraper Notifier.

Lemma update_unknown_job_noop_witness :
  save_job 20 one_row intern_job false = one_row.
Proof. apply (update_unknown_job_noop 20 one_row intern_job). vm_compute. reflexivity. Defined.

Lemma update_known_job_witness :
  save_job 20 one_row (set_score lever_job 70) false !! "a1b2c3"%string
  = Some (mkRow (set_score lever_job 70) 10 20 true) /\
  forall k : string, k <> "a1b2c3"%string ->
    save_job 20 one_row (set_score lever_job 70) false !! k = one_row !! k.
Proof.
  apply (update_known_job 20 one_row (set_score lever_job 70)
           (mkRow lever_job 10 10 true)).
  vm_compute. reflexivity.
Defined.

Lemma qualified_scores_bounded_witness :
  PyFloat.le 0 70 /\ PyFloat.le 70 100.
Proof.
  apply (qualified_scores_bounded example_config (fun _ => 100 * day) (fun _ => 0)
           true [example_job (100 * day)] ∅
           (set_score (example_job (100 * day)) 70)).
  vm_compute. left. reflexivity.
Defined.

Lemma no_new_flag_after_run_witness :
  get_new_jobs_count
    (database (run example_config (fun _ => 100 * day) (fun _ => 0) false
                   [example_job (100 * day)] ∅)) = 0%nat.
Proof.
  apply (no_new_flag_after_run example_config (fun _ => 100 * day) (fun _ => 0)
           [example_job (100 * day)] ∅).
  vm_compute. discriminate.
Defined.

Lemma get_stops_at_first_final_witness :
  exists c',
    get whole_url (client 2) flaky_network board
    = (Return (mkResponse 200 "[]"), c',
       (rate_limit whole_url (client 2) flaky_network board).1
       ++ retry_schedule board 2 0 1)
    /\ requests ((rate_limit whole_url (client 2) flaky_network board).1
                 ++ retry_schedule board 2 0 1) = 2%nat.
Proof.
  apply (get_stops_at_first_final whole_url (client 2) flaky_network board
           (fun _ => RequestError "reset") 1).
  - cbn. lia.
  - lia.
  - intros i Hi. assert (i = 0%nat) as -> by lia. split; reflexivity.
  - exact I.
Defined.

Lemma get_first_events_witness :
  exists rest,
    (get whole_url seen_client prompt_network board).2
    = EvSleep 1.5 :: EvRequest board :: rest.
Proof.
  destruct (get_first_events whole_url seen_client prompt_network board) as [rest H].
  - cbn. lia.
  - exists rest. rewrite H. vm_compute. reflexivity.
Defined.

Lemma recency_monotone_witness :
  PyFloat.le (_score_recency (100 * day) (Some (60 * day)))
             (_score_recency (100 * day) (Some (95 * day))) /\
  PyFloat.le 10 (_score_recency (100 * day) (Some (60 * day))) /\
  PyFloat.le (_score_recency (100 * day) (Some (60 * day))) 100.
Proof. apply (recency_monotone (100 * day) (60 * day) (95 * day)). vm_compute. discriminate. Defined.

Lemma empty_exclude_keyword_excludes_all_witness :
  should_exclude_job blank_config lever_job = true.
Proof. apply (empty_exclude_keyword_excludes_all blank_config lever_job). now left. Defined.

Lemma html_job_shape_witness :
  (source (post_init (html_job 1000)) = ("html_" +:+ "web3_career")%string /\
   description (post_init (html_job 1000)) = EmptyString /\
   experience_level (post_init (html_job 1000)) = None /\
   job_type (post_init (html_job 1000)) = None /\
   salary_range (post_init (html_job 1000)) = None /\
   job_id (post_init (html_job 1000))
   = Some (MD5.hexdigest (title (post_init (html_job 1000)) +:+ "_"
                          +:+ company (post_init (html_job 1000)) +:+ "_"
                          +:+ url (post_init (html_job 1000)))) /\
   (PyStr.startswith (url (post_init (html_job 1000))) "http" = true \/
    exists href, url (post_init (html_job 1000)) = "https://x.io" +:+ href)) /\
  forall cfg, _score_keyword_match cfg (description (post_init (html_job 1000))) = 0%float.
Proof.
  apply (html_job_shape "web3_career" "https://x.io" (fun _ => 1000)
           [mkElement (Some "Engineer"%string) (Some "Acme"%string) None
                      (Some (Some "/1"%string))]).
  vm_compute. left. reflexivity.
Defined.


(** The ranking of the three jobs: the two jobs at 70 first, in the order
    they came, then the job at 40. *)
Example ranking_example :
  List.map title (sorted_by_score scored_jobs)
  = ["Protocol Engineer"; "Protocol Engineer"; "Marketing Intern"]%string /\
  List.map job_id (sorted_by_score scored_jobs)
  = [Some "a1b2c3"; Some "3"; Some "2"]%string.
Proof. vm_compute. split; reflexivity. Qed.

End MoreWitnesses.
